(** * TRIALDB Dataset API (apitry.py): the query, filter and paginate contract

    A shallow embedding of the four request handlers of [apitry.py] and of the
    pandas / re / FastAPI operations they call, followed by the properties of
    the handlers.

    Conventions of the embedding.
    - A Python [int] is a [Z]; [len] results are [Z] as well.
    - A Python [str] is a [string]: a sequence of code points below 256.
    - A handler either returns a value or raises an exception: see [outcome].
    - [re] is modelled on a fragment of its pattern language; what it does
      with any other pattern is a parameter of the handlers that filter.
    - A column holds what its dtype can hold: [int64] the 64-bit integers,
      [float64] the doubles, so that a whole number read from it is the double
      nearest to the number stored.  A lookup compares a column of integers
      with a 64-bit id exactly and a column of doubles with the double
      nearest to the id; what the comparison does with an id beyond the 64-bit
      integers that the column cannot hold is a parameter of the lookup. *)

From Stdlib Require Import ZArith List String Ascii Bool Lia Permutation.
From Stdlib Require Import Numbers.DecimalString Numbers.DecimalPos Numbers.DecimalZ.
Import ListNotations.

Local Open Scope string_scope.
Local Open Scope list_scope.
Local Open Scope Z_scope.

(** ** Outcomes of a handler *)

Inductive exn : Type :=
| KeyError (key : string)
    (* df[key] on a frame that has no column [key] *)
| AttributeError
    (* "Can only use .str accessor with string values!" *)
| ReError
    (* re.error: the filter value does not compile as a pattern *)
| HTTPException (status_code : Z) (detail : string)
| RequestValidationError
    (* raised by the framework for a rejected query or path parameter *)
| Exception (cls : string).
    (* any other exception, by the name of its class *)

Inductive outcome (A : Type) : Type :=
| Returns (a : A)
| Raises (e : exn).

Arguments Returns {A} a.
Arguments Raises {A} e.

Definition bind {A B : Type} (m : outcome A) (k : A -> outcome B) : outcome B :=
  match m with
  | Returns a => k a
  | Raises e => Raises e
  end.

Notation "x <- m ;; k" := (bind m (fun x => k))
  (at level 61, m at next level, right associativity).

(** The status line the framework answers with: an [HTTPException] carries its
    own code, a validation error is a 422, any other exception that escapes a
    handler is a 500. *)
Definition status_of (e : exn) : Z :=
  match e with
  | HTTPException code _ => code
  | RequestValidationError => 422
  | KeyError _ | AttributeError | ReError | Exception _ => 500
  end.

(** ** Python built-ins *)

Module Py.

Definition len {A : Type} (l : list A) : Z := Z.of_nat (List.length l).

(** Truthiness of an [Optional[str]]: [None] and [""] are falsy. *)
Definition truthy (o : option string) : bool :=
  match o with
  | None => false
  | Some "" => false
  | Some _ => true
  end.

(** Bound of a slice [l[start:stop]] on a sequence of length [n]: a negative
    bound counts from the end, and both are clamped to [0, n]. *)
Definition slice_bound (n i : Z) : Z :=
  if i <? 0 then Z.max 0 (n + i) else Z.min i n.

Definition slice {A : Type} (l : list A) (start stop : Z) : list A :=
  let n := len l in
  let lo := slice_bound n start in
  let hi := slice_bound n stop in
  firstn (Z.to_nat (hi - lo)) (skipn (Z.to_nat lo) l).

(** [str(i)] for an [int]: decimal digits, a leading minus sign when negative. *)
Definition str_of_int (i : Z) : string := NilZero.string_of_int (Z.to_int i).

(** Code points for which [str.isspace] holds, below 256. *)
Definition isspace (c : ascii) : bool :=
  let n := nat_of_ascii c in
  ((9 <=? n) && (n <=? 13) || (28 <=? n) && (n <=? 32)
   || (n =? 133) || (n =? 160))%nat.

Fixpoint lstrip (s : string) : string :=
  match s with
  | String c s' => if isspace c then lstrip s' else s
  | EmptyString => EmptyString
  end.

(** [rstrip]: a trailing run of white space is dropped. *)
Fixpoint rstrip (s : string) : string :=
  match s with
  | String c s' =>
      match rstrip s' with
      | EmptyString => if isspace c then EmptyString else String c EmptyString
      | t => String c t
      end
  | EmptyString => EmptyString
  end.

Definition strip (s : string) : string := rstrip (lstrip s).

(** ASCII case mapping, the part of [str.lower] / [str.upper] that acts on
    code points below 128. *)
Definition lower (c : ascii) : ascii :=
  let n := nat_of_ascii c in
  if ((65 <=? n) && (n <=? 90))%nat then ascii_of_nat (n + 32) else c.

Definition upper (c : ascii) : ascii :=
  let n := nat_of_ascii c in
  if ((97 <=? n) && (n <=? 122))%nat then ascii_of_nat (n - 32) else c.

Fixpoint str_lower (s : string) : string :=
  match s with
  | String c s' => String (lower c) (str_lower s')
  | EmptyString => EmptyString
  end.

Fixpoint str_upper (s : string) : string :=
  match s with
  | String c s' => String (upper c) (str_upper s')
  | EmptyString => EmptyString
  end.

Definition is_ascii (c : ascii) : bool := (nat_of_ascii c <? 128)%nat.

End Py.

(** ** Regular expressions

    [Series.str.contains(pat, case=False, na=False)] leaves [regex] at its
    default [True]: [pat] is compiled with [re.compile(pat, re.IGNORECASE)] and
    a string is kept when [search] finds a match anywhere in it.  The patterns
    modelled here are sequences of: an ordinary ASCII character, [.], the
    classes [\d] and [\D], and a backslash followed by a special character;
    such a sequence that ends in a lone backslash does not compile.  What [re]
    does with any other pattern is left open: see [engine]. *)

Module Re.

Inductive atom : Type :=
| Lit (c : ascii)   (* one character, compared case-insensitively *)
| Dot               (* any character except a newline *)
| Digit             (* \d *)
| NotDigit.         (* \D *)

Definition regex := list atom.

Fixpoint mem (c : ascii) (s : string) : bool :=
  match s with
  | String d s' => Ascii.eqb c d || mem c s'
  | EmptyString => false
  end.

(** The characters with a meaning of their own in a pattern. *)
Definition special (c : ascii) : bool := mem c ".^$*+?{}[]\|()".

Definition backslash : ascii := "\"%char.

Inductive parsed : Type :=
| Pattern (r : regex)   (* a pattern of the fragment *)
| Invalid               (* [re.compile] raises [re.error] *)
| Outside.              (* not decided here *)

(** One more item in front of what the rest of the pattern gave. *)
Definition item (a : atom) (rest : parsed) : parsed :=
  match rest with
  | Pattern r => Pattern (a :: r)
  | Invalid => Invalid
  | Outside => Outside
  end.

Fixpoint compile (pat : string) : parsed :=
  match pat with
  | EmptyString => Pattern []
  | String c rest =>
      if Ascii.eqb c backslash then
        match rest with
        | String e rest' =>
            if Ascii.eqb e "d" then item Digit (compile rest')
            else if Ascii.eqb e "D" then item NotDigit (compile rest')
            else if special e then item (Lit e) (compile rest')
            else Outside
        | EmptyString => Invalid   (* bad escape (end of pattern) *)
        end
      else if Ascii.eqb c "." then item Dot (compile rest)
      else if special c || negb (Py.is_ascii c) then Outside
      else item (Lit c) (compile rest)
  end.

Definition isdigit (c : ascii) : bool :=
  let n := nat_of_ascii c in ((48 <=? n) && (n <=? 57))%nat.

Definition newline : ascii := ascii_of_nat 10.

(** One pattern item against one character, under [re.IGNORECASE]. *)
Definition atom_matches (a : atom) (d : ascii) : bool :=
  match a with
  | Lit c => Ascii.eqb (Py.lower c) (Py.lower d)
  | Dot => negb (Ascii.eqb d newline)
  | Digit => isdigit d
  | NotDigit => negb (isdigit d)
  end.

(** A match that starts at the first character of [s]. *)
Fixpoint match_here (r : regex) (s : string) : bool :=
  match r, s with
  | [], _ => true
  | a :: r', String d s' => atom_matches a d && match_here r' s'
  | _ :: _, EmptyString => false
  end.

(** [pattern.search(s) is not None]: a match that starts anywhere in [s]. *)
Fixpoint search (r : regex) (s : string) : bool :=
  match_here r s
  || match s with
     | String _ s' => search r s'
     | EmptyString => false
     end.

(** What [re] does with a pattern: the exception that [re.compile] raises
    ([re.error], or another one such as the [OverflowError] of a repeat count
    that is too large), otherwise the test that [search] finds a match in a
    string. *)
Definition engine : Type := string -> outcome (string -> bool).

(** [re] on every pattern: as modelled above on the fragment, as [beyond] says
    outside it. *)
Definition compile_search (beyond : engine) (pat : string) : outcome (string -> bool) :=
  match compile pat with
  | Pattern r => Returns (search r)
  | Invalid => Raises ReError
  | Outside => beyond pat
  end.

(** An engine that refuses every pattern outside the fragment. *)
Definition refuse_others : engine := fun _ => Raises ReError.

End Re.

(** ** pandas: frames, columns and the operations the handlers use *)

Module Pd.

(** One entry of a column: a whole number (an [int], or the float that holds
    it in a [float64] column), a string, or a missing value (NaN). *)
Inductive cell : Type :=
| CInt (z : Z)
| CStr (s : string)
| CNaN.

Inductive dtype : Type := int64 | float64 | object.

(** A frame: its columns in order, each with the dtype fixed at load time,
    and its rows in file order.  The labels of the columns are taken to be
    distinct.  A row that is shorter than the header reads as missing in the
    remaining columns. *)
Record DataFrame : Type := mkDataFrame {
  columns : list (string * dtype);
  rows : list (list cell)
}.

Record Series : Type := mkSeries {
  s_dtype : dtype;
  values : list cell
}.

(** [pd.DataFrame()]: no column, no row. *)
Definition empty : DataFrame := mkDataFrame [] [].

(** The double nearest to a whole number: 53 significant bits, a tie going to
    the even significand. *)
Definition round_half_even (q r half : Z) : Z :=
  if (half <? r) || ((r =? half) && Z.odd q) then q + 1 else q.

Definition to_double_pos (n : Z) : Z :=
  let e := Z.log2 n + 1 - 53 in
  if e <=? 0 then n
  else let p := 2 ^ e in
       round_half_even (n / p) (n mod p) (p / 2) * p.

Definition to_double (z : Z) : Z :=
  if z <? 0 then - to_double_pos (- z) else to_double_pos z.

(** The magnitudes below the largest double, and the 64-bit integers. *)
Definition finite (z : Z) : bool := Z.abs z <? 2 ^ 1024.

Definition fits_int64 (z : Z) : bool := (- 2 ^ 63 <=? z) && (z <? 2 ^ 63).

(** A whole number that a double holds exactly. *)
Definition is_double (z : Z) : bool := (to_double z =? z) && finite z.

(** An entry as a column of dtype [t] holds it: a column of 64-bit integers
    or of doubles holds no whole number beyond its range. *)
Definition read (t : dtype) (c : cell) : cell :=
  match t, c with
  | int64, CInt z => if fits_int64 z then CInt z else CNaN
  | float64, CInt z => if finite (to_double z) then CInt (to_double z) else CNaN
  | _, _ => c
  end.

Definition len (df : DataFrame) : Z := Py.len (rows df).

Definition cell_at (i : nat) (r : list cell) : cell := nth i r CNaN.

(** Position and dtype of the first column called [key]. *)
Fixpoint find_column (key : string) (cols : list (string * dtype)) : option (nat * dtype) :=
  match cols with
  | [] => None
  | (name, t) :: cols' =>
      if String.eqb key name then Some (O, t)
      else option_map (fun p => (S (fst p), snd p)) (find_column key cols')
  end.

(** [df[key]] for a column label. *)
Definition getitem (df : DataFrame) (key : string) : outcome Series :=
  match find_column key (columns df) with
  | Some (i, t) => Returns (mkSeries t (map (fun row => read t (cell_at i row)) (rows df)))
  | None => Raises (KeyError key)
  end.

Definition is_na (c : cell) : bool :=
  match c with CNaN => true | _ => false end.

Definition is_str (c : cell) : bool :=
  match c with CStr _ => true | _ => false end.

(** [series.str]: refused unless the column is of dtype [object] and its
    entries that are present are either none or include a string. *)
Definition str_accessor (s : Series) : outcome (list cell) :=
  match s_dtype s with
  | object =>
      match filter (fun c => negb (is_na c)) (values s) with
      | [] => Returns (values s)
      | present =>
          if existsb is_str present then Returns (values s)
          else Raises AttributeError
      end
  | int64 | float64 => Raises AttributeError
  end.

(** [series.str.contains(pat, case=False, na=False)]: a Boolean per entry;
    an entry that is missing or is not a string gives [False]. *)
Definition str_contains (beyond : Re.engine) (s : Series) (pat : string)
    : outcome (list bool) :=
  vals <- str_accessor s ;;
  found <- Re.compile_search beyond pat ;;
  Returns (map (fun c => match c with
                         | CStr x => found x
                         | CInt _ | CNaN => false
                         end) vals).

(** What [==] does between a column of numbers and an [int] beyond the 64-bit
    integers that the column cannot hold: an exception, or a test on the
    number an entry holds. *)
Definition far_compare : Type := Z -> outcome (Z -> bool).

(** One such comparison: it overflows. *)
Definition far_overflows : far_compare := fun _ => Raises (Exception "OverflowError").

(** [series == i] for an [int], entry by entry.  A column of objects is
    compared exactly, and so is a column of integers with a 64-bit [i].  A
    column of doubles is compared with the double nearest to [i], when [i] is
    a 64-bit integer or a double.  Any other comparison is as [far] says. *)
Definition eq_int (far : far_compare) (s : Series) (i : Z) : outcome (list bool) :=
  test <- match s_dtype s with
          | int64 =>
              if fits_int64 i then Returns (fun z => Z.eqb z i) else far i
          | float64 =>
              if fits_int64 i || is_double i
              then Returns (fun z => Z.eqb z (to_double i))
              else far i
          | object => Returns (fun z => Z.eqb z i)
          end ;;
  Returns (map (fun c => match c with
                         | CInt z => test z
                         | CStr _ | CNaN => false
                         end) (values s)).

Fixpoint select {A : Type} (l : list A) (mask : list bool) : list A :=
  match l, mask with
  | x :: l', b :: mask' => if b then x :: select l' mask' else select l' mask'
  | _, _ => []
  end.

(** [df[mask]] for a Boolean mask: the rows where the mask holds, in order. *)
Definition getitem_mask (df : DataFrame) (mask : list bool) : DataFrame :=
  mkDataFrame (columns df) (select (rows df) mask).

(** [df.iloc[start:stop]]. *)
Definition iloc (df : DataFrame) (start stop : Z) : DataFrame :=
  mkDataFrame (columns df) (Py.slice (rows df) start stop).

(** One row as a dict from column label to entry. *)
Definition record : Type := list (string * cell).

Fixpoint to_record (cols : list (string * dtype)) (r : list cell) : record :=
  match cols with
  | [] => []
  | (name, t) :: cols' => (name, read t (hd CNaN r)) :: to_record cols' (tl r)
  end.

(** [df.to_dict(orient="records")]. *)
Definition to_dict_records (df : DataFrame) : list record :=
  map (to_record (columns df)) (rows df).

Definition cell_eqb (a b : cell) : bool :=
  match a, b with
  | CInt x, CInt y => Z.eqb x y
  | CStr x, CStr y => String.eqb x y
  | CNaN, CNaN => true
  | _, _ => false
  end.

(** [series.unique()]: the entries in order of first appearance; a missing
    value is kept, once. *)
Fixpoint first_occurrences (seen l : list cell) : list cell :=
  match l with
  | [] => []
  | c :: l' =>
      if existsb (cell_eqb c) seen then first_occurrences seen l'
      else c :: first_occurrences (c :: seen) l'
  end.

Definition unique (s : Series) : list cell := first_occurrences [] (values s).

(** [series.nunique()]: [dropna] is left at its default [True]. *)
Definition nunique (s : Series) : Z :=
  Py.len (first_occurrences [] (filter (fun c => negb (is_na c)) (values s))).

(** [df.columns.str.strip()] assigned back to [df.columns]. *)
Definition strip_columns (df : DataFrame) : DataFrame :=
  mkDataFrame (map (fun c => (Py.strip (fst c), snd c)) (columns df)) (rows df).

End Pd.

Import Pd.

(** ** The response bodies *)

Module Root.
Record t : Type := mk {
  message : string;
  total_records : Z;
  endpoints : list (string * string)
}.
End Root.

Module Listing.
Record t : Type := mk {
  page : Z;
  size : Z;
  total_filtered : Z;
  data : list record
}.
End Listing.

Module ById.
Record t : Type := mk {
  insid : Z;
  count : Z;
  data : list record
}.
End ById.

Module Stats.
Record t : Type := mk {
  unique_institutions : Z;
  unique_credentials : Z;
  credential_levels : list cell
}.
End Stats.

(** ** Start-up: the module-level [try ... except FileNotFoundError]

    [read_csv] is the table [pd.read_csv('TRIALDB.csv')] parses, or [None] when
    the file is not there. *)
Definition startup_df (read_csv : option DataFrame) : DataFrame :=
  match read_csv with
  | Some df => strip_columns df
  | None => Pd.empty
  end.

(** ** The handlers, over the frame [df] loaded at start-up *)

Section Handlers.

(** [re] outside the modelled fragment. *)
Variable beyond : Re.engine.

(** [==] between the INSID column and an id beyond the 64-bit integers that
    the column cannot hold. *)
Variable far : far_compare.

Variable df : DataFrame.

Definition read_root : Root.t :=
  {| Root.message := "Welcome to the Institution Data API";
     Root.total_records := len df;
     Root.endpoints := [ ("all_data", "/records");
                         ("search_by_id", "/records/{insid}");
                         ("docs", "/docs") ] |}.

(** [if value: frame = frame[frame[column].str.contains(value, case=False, na=False)]] *)
Definition filter_column (frame : DataFrame) (column : string)
    (value : option string) : outcome DataFrame :=
  match value with
  | Some pat =>
      if Py.truthy value then
        s <- getitem frame column ;;
        mask <- str_contains beyond s pat ;;
        Returns (getitem_mask frame mask)
      else Returns frame
  | None => Returns frame
  end.

Definition get_records (page size : Z) (insname creddesc : option string)
    : outcome Listing.t :=
  let filtered_df := df in
  filtered_df <- filter_column filtered_df "INSNAME" insname ;;
  filtered_df <- filter_column filtered_df "CREDDESC" creddesc ;;
  let start := (page - 1) * size in
  let stop := start + size in
  let results := to_dict_records (iloc filtered_df start stop) in
  Returns {| Listing.page := page;
             Listing.size := Py.len results;
             Listing.total_filtered := len filtered_df;
             Listing.data := results |}.

Definition get_records_by_insid (insid : Z) : outcome ById.t :=
  s <- getitem df "INSID" ;;
  mask <- eq_int far s insid ;;
  let results := to_dict_records (getitem_mask df mask) in
  match results with
  | [] =>
      Raises (HTTPException 404
                (String.append "No records found for INSID " (Py.str_of_int insid)))
  | _ :: _ =>
      Returns {| ById.insid := insid;
                 ById.count := Py.len results;
                 ById.data := results |}
  end.

Definition get_stats : outcome Stats.t :=
  names <- getitem df "INSNAME" ;;
  creds <- getitem df "CREDDESC" ;;
  levels <- getitem df "CREDLEV" ;;
  Returns {| Stats.unique_institutions := nunique names;
             Stats.unique_credentials := nunique creds;
             Stats.credential_levels := unique levels |}.

(** *** The boundary: parameter declarations of the routes

    What the framework found for an [int] parameter in the request: nothing,
    text that is not an integer, or an integer. *)
Inductive raw_int : Type :=
| Malformed
| Int (z : Z).

Definition in_range (ge le : option Z) (z : Z) : bool :=
  match ge with Some lo => lo <=? z | None => true end
  && match le with Some hi => z <=? hi | None => true end.

(** [Query(default, ge=..., le=...)] on an [int] query parameter: the value
    the handler is called with, or [None] when the request is rejected. *)
Definition Query (default : Z) (ge le : option Z) (raw : option raw_int) : option Z :=
  match raw with
  | None => Some default
  | Some Malformed => None
  | Some (Int z) => if in_range ge le z then Some z else None
  end.

(** A path parameter annotated [int]. *)
Definition Path (raw : raw_int) : option Z :=
  match raw with
  | Malformed => None
  | Int z => Some z
  end.

(** [GET /records?page=..&size=..&insname=..&creddesc=..]: the validation of
    the parameters and the call of the handler.  What is sent back once the
    handler has returned is [serve_records]. *)
Definition route_records (page size : option raw_int)
    (insname creddesc : option string) : outcome Listing.t :=
  match Query 1 (Some 1) None page, Query 10 (Some 1) (Some 100) size with
  | Some page, Some size => get_records page size insname creddesc
  | _, _ => Raises RequestValidationError
  end.

(** [GET /records/{insid}]: validation and call of the handler. *)
Definition route_records_by_insid (insid : raw_int) : outcome ById.t :=
  match Path insid with
  | Some insid => get_records_by_insid insid
  | None => Raises RequestValidationError
  end.

(** *** The response: the returned value is encoded as JSON

    The encoder refuses NaN ("Out of range float values are not JSON
    compliant"): a returned body that holds a missing entry ends in a
    [ValueError], answered with a 500. *)
Definition holds_nan (rec : record) : bool :=
  existsb (fun kv => is_na (snd kv)) rec.

Definition encode_records (data : list record) : outcome unit :=
  if existsb holds_nan data then Raises (Exception "ValueError") else Returns tt.

Definition serve_records (page size : option raw_int)
    (insname creddesc : option string) : outcome Listing.t :=
  body <- route_records page size insname creddesc ;;
  _ <- encode_records (Listing.data body) ;;
  Returns body.

Definition serve_records_by_insid (insid : raw_int) : outcome ById.t :=
  body <- route_records_by_insid insid ;;
  _ <- encode_records (ById.data body) ;;
  Returns body.

End Handlers.

(** ** The words of the specification, as definitions *)

(** [is_prefix p s]: [s] starts with [p]. *)
Fixpoint is_prefix (p s : string) : bool :=
  match p, s with
  | EmptyString, _ => true
  | String a p', String b s' => Ascii.eqb a b && is_prefix p' s'
  | String _ _, EmptyString => false
  end.

(** [is_substring p s]: [p] occurs in [s] as a contiguous run. *)
Fixpoint is_substring (p s : string) : bool :=
  is_prefix p s
  || match s with
     | String _ s' => is_substring p s'
     | EmptyString => false
     end.

(** The filter of the specification: [value] occurs in [s] when case is
    ignored. *)
Definition contains_ignoring_case (value s : string) : bool :=
  is_substring (Py.str_lower value) (Py.str_lower s).

(** A filter value is plain when each of its characters is an ASCII character
    with no meaning of its own in a pattern. *)
Definition plain_char (c : ascii) : bool := negb (Re.special c) && Py.is_ascii c.

Fixpoint plain (value : string) : bool :=
  match value with
  | String c rest => plain_char c && plain rest
  | EmptyString => true
  end.

Fixpoint literal (value : string) : Re.regex :=
  match value with
  | String c rest => Re.Lit c :: literal rest
  | EmptyString => []
  end.

(** The entry of a record under a column label. *)
Fixpoint lookup (key : string) (r : record) : option cell :=
  match r with
  | [] => None
  | (k, v) :: r' => if String.eqb key k then Some v else lookup key r'
  end.

(** The entry of a row under a column label of the frame; missing when the
    frame has no such column. *)
Definition entry (df : DataFrame) (column : string) (row : list cell) : cell :=
  match find_column column (columns df) with
  | Some (i, t) => read t (cell_at i row)
  | None => CNaN
  end.

Definition has_column (df : DataFrame) (column : string) : bool :=
  match find_column column (columns df) with
  | Some _ => true
  | None => false
  end.

(** A column of text: of dtype [object], every entry a string or missing. *)
Definition text_column (df : DataFrame) (column : string) : bool :=
  match find_column column (columns df) with
  | Some (i, object) =>
      forallb (fun row => match cell_at i row with
                          | CInt _ => false
                          | CStr _ | CNaN => true
                          end) (rows df)
  | _ => false
  end.

(** A supplied filter can be evaluated: its column is a column of text and its
    value compiles as a pattern. *)
Definition usable (beyond : Re.engine) (df : DataFrame) (column : string)
    (value : option string) : bool :=
  match value with
  | Some pat =>
      if Py.truthy value then
        text_column df column
        && match Re.compile_search beyond pat with Returns _ => true | Raises _ => false end
      else true
  | None => true
  end.

(** What one filter decides about one row: an unset or empty filter passes it;
    a supplied one passes it when its entry is a string the pattern matches. *)
Definition passes (beyond : Re.engine) (df : DataFrame) (column : string)
    (value : option string) (row : list cell) : bool :=
  match value with
  | Some pat =>
      if Py.truthy value then
        match entry df column row, Re.compile_search beyond pat with
        | CStr x, Returns found => found x
        | _, _ => false
        end
      else true
  | None => true
  end.

(** Duplicates removed, the first occurrence of each entry kept in place. *)
Fixpoint distinct (l : list cell) : list cell :=
  match l with
  | [] => []
  | c :: l' => c :: filter (fun d => negb (cell_eqb d c)) (distinct l')
  end.

(** The entries of a column that are present (not NaN). *)
Definition present (l : list cell) : list cell :=
  filter (fun c => negb (is_na c)) l.

(** The entries of the frame under a column label, row by row. *)
Definition column_entries (df : DataFrame) (column : string) : list cell :=
  map (entry df column) (rows df).

(** A record whose entry under [column] is missing. *)
Definition is_missing (column : string) (rec : record) : bool :=
  match lookup column rec with
  | Some CNaN => true
  | _ => false
  end.

(** The elements whose key is the integer [id], and those whose key is an
    integer at all. *)
Definition keyed {A : Type} (key : A -> cell) (id : Z) (l : list A) : list A :=
  filter (fun x => cell_eqb (key x) (CInt id)) l.

Definition int_keyed {A : Type} (key : A -> cell) (l : list A) : list A :=
  filter (fun x => match key x with CInt _ => true | CStr _ | CNaN => false end) l.

(** The dtype of the INSID column, when there is one. *)
Definition insid_dtype (df : DataFrame) : option dtype :=
  option_map snd (find_column "INSID" (columns df)).

(** The lookup of [id] is one whose comparison is modelled: [id] is a 64-bit
    integer, or the INSID column can hold it. *)
Definition certain (df : DataFrame) (id : Z) : bool :=
  match insid_dtype df with
  | Some int64 => fits_int64 id
  | Some float64 => fits_int64 id || is_double id
  | Some object | None => true
  end.

(** The number that the entries are compared with in a lookup of [id]: [id]
    itself, or the double nearest to it on a column of doubles. *)
Definition sought (df : DataFrame) (id : Z) : Z :=
  match insid_dtype df with
  | Some float64 => to_double id
  | _ => id
  end.

(** The request parameters that the boundary refuses. *)
Definition out_of_range_page (page : option raw_int) : bool :=
  match page with
  | Some Malformed => true
  | Some (Int z) => z <? 1
  | None => false
  end.

Definition out_of_range_size (size : option raw_int) : bool :=
  match size with
  | Some Malformed => true
  | Some (Int z) => (z <? 1) || (100 <? z)
  | None => false
  end.

(** ** Sample tables

    The scenario of the specification: three records, two institutions that
    share INSID 1. *)
Definition trial_columns : list (string * dtype) :=
  [("INSID", int64); ("INSNAME", object); ("CREDDESC", object); ("CREDLEV", int64)].

Definition scenario : DataFrame :=
  mkDataFrame trial_columns
    [ [CInt 1; CStr "Alpha U"; CStr "Bachelor of Science"; CInt 3];
      [CInt 1; CStr "Alpha College"; CStr "Master of Arts"; CInt 5];
      [CInt 2; CStr "Beta Inst"; CStr "Bachelor of Arts"; CInt 3] ].

(** A table with gaps: one institution name and one credential level are
    missing. *)
Definition with_gaps : DataFrame :=
  mkDataFrame
    [("INSID", int64); ("INSNAME", object); ("CREDDESC", object); ("CREDLEV", float64)]
    [ [CInt 1; CStr "Alpha U"; CStr "Diploma"; CInt 3];
      [CInt 2; CNaN; CStr "Diploma"; CNaN];
      [CInt 3; CStr "Gamma Tech"; CNaN; CInt 3] ].

(** A table with an INSID gap: the column is held as doubles. *)
Definition float_ids : DataFrame :=
  mkDataFrame [("INSID", float64); ("INSNAME", object)]
    [ [CInt 9007199254740992; CStr "Alpha U"];
      [CNaN; CStr "Beta Inst"] ].

(** A table whose names exercise the pattern characters. *)
Definition codes : DataFrame :=
  mkDataFrame trial_columns
    [ [CInt 1; CStr "abc"; CStr "Unit 7"; CInt 1];
      [CInt 2; CStr "a.c"; CStr "Unit B"; CInt 1] ].

(** ** Words for the properties of the handlers taken together *)

(** The rows that pass both filters of a listing, in file order. *)
Definition matching_rows (beyond : Re.engine) (df : DataFrame)
    (insname creddesc : option string) : list (list cell) :=
  filter (fun row => passes beyond df "INSNAME" insname row
                     && passes beyond df "CREDDESC" creddesc row) (rows df).

(** The records of a listing; none when the request ended in an exception. *)
Definition listing_data (o : outcome Listing.t) : list record :=
  match o with
  | Returns r => Listing.data r
  | Raises _ => []
  end.

(** The count a lookup reports; 0 when it ended in an exception. *)
Definition count_of (o : outcome ById.t) : Z :=
  match o with
  | Returns r => ById.count r
  | Raises _ => 0
  end.

Definition sum (l : list Z) : Z := fold_right Z.add 0 l.

(** The column labels of a frame and the keys of a record, in order. *)
Definition labels (df : DataFrame) : list string := map fst (columns df).

Definition keys (rec : record) : list string := map fst rec.

(** A string that begins, or ends, with white space. *)
Definition starts_with_space (s : string) : bool :=
  match s with
  | String c _ => Py.isspace c
  | EmptyString => false
  end.

Fixpoint ends_with_space (s : string) : bool :=
  match s with
  | String c EmptyString => Py.isspace c
  | String _ s' => ends_with_space s'
  | EmptyString => false
  end.

(** The rows whose entry under [column] is a string that contains [value],
    case ignored. *)
Definition containing (df : DataFrame) (column value : string) : list (list cell) :=
  filter (fun row => match entry df column row with
                     | CStr x => contains_ignoring_case value x
                     | CInt _ | CNaN => false
                     end) (rows df).

(** * Properties *)

(** ** Lists, slices and masks *)

Lemma select_map {A : Type} (f : A -> bool) (l : list A) :
  select l (map f l) = filter f l.
Proof.
  induction l as [|x l IH]; simpl; [reflexivity|].
  rewrite IH. reflexivity.
Qed.

Lemma select_map_map {A B : Type} (g : A -> B) (f : B -> bool) (l : list A) :
  select l (map f (map g l)) = filter (fun x => f (g x)) l.
Proof.
  rewrite map_map. apply (select_map (fun x => f (g x))).
Qed.

Lemma filter_filter {A : Type} (p q : A -> bool) (l : list A) :
  filter q (filter p l) = filter (fun x => p x && q x) l.
Proof.
  induction l as [|x l IH]; simpl; [reflexivity|].
  destruct (p x); simpl; [destruct (q x)|]; rewrite IH; reflexivity.
Qed.

(** A slice whose bounds are not negative is the usual offset-and-limit
    window. *)
Lemma slice_window {A : Type} (l : list A) (start n : Z) :
  0 <= start -> 0 <= n ->
  Py.slice l start (start + n) = firstn (Z.to_nat n) (skipn (Z.to_nat start) l).
Proof.
  intros Hs Hn. unfold Py.slice, Py.slice_bound, Py.len.
  destruct (Z.ltb_spec start 0) as [?|_]; [lia|].
  destruct (Z.ltb_spec (start + n) 0) as [?|_]; [lia|].
  destruct (Z_le_gt_dec (Z.of_nat (List.length l)) start) as [Hge|Hlt].
  - rewrite (skipn_all2 l) by lia.
    rewrite (skipn_all2 l) by lia.
    now rewrite !firstn_nil.
  - replace (Z.min start (Z.of_nat (List.length l))) with start by lia.
    destruct (Z_le_gt_dec (start + n) (Z.of_nat (List.length l))) as [Hin|Hout].
    + replace (Z.min (start + n) (Z.of_nat (List.length l)) - start) with n by lia.
      reflexivity.
    + replace (Z.min (start + n) (Z.of_nat (List.length l)) - start)
        with (Z.of_nat (List.length l) - start) by lia.
      rewrite !firstn_all2; try reflexivity; rewrite length_skipn; lia.
Qed.

Lemma in_firstn {A : Type} (n : nat) (l : list A) (x : A) :
  In x (firstn n l) -> In x l.
Proof.
  intros H. rewrite <- (firstn_skipn n l). apply in_or_app. now left.
Qed.

Lemma in_skipn {A : Type} (n : nat) (l : list A) (x : A) :
  In x (skipn n l) -> In x l.
Proof.
  intros H. rewrite <- (firstn_skipn n l). apply in_or_app. now right.
Qed.

Lemma slice_incl {A : Type} (l : list A) (start stop : Z) (x : A) :
  In x (Py.slice l start stop) -> In x l.
Proof.
  unfold Py.slice. intros H.
  apply in_firstn in H. apply (in_skipn _ _ _ H).
Qed.

Lemma nth_error_window {A : Type} (l : list A) (off n k : nat) :
  nth_error (firstn n (skipn off l)) k =
  if (k <? n)%nat then nth_error l (off + k) else None.
Proof.
  rewrite nth_error_firstn.
  destruct (k <? n)%nat; [apply nth_error_skipn | reflexivity].
Qed.

Lemma filter_all {A : Type} (l : list A) : filter (fun _ => true) l = l.
Proof.
  induction l as [|x l IH]; simpl; [reflexivity|]. now rewrite IH.
Qed.

(** ** Columns, rows and records *)

Lemma frame_eta (df : DataFrame) : mkDataFrame (columns df) (rows df) = df.
Proof. now destruct df. Qed.

Lemma cell_at_tl (i : nat) (r : list cell) : cell_at (S i) r = cell_at i (tl r).
Proof.
  unfold cell_at. destruct r as [|c r]; simpl; [now destruct i | reflexivity].
Qed.

Lemma cell_at_hd (r : list cell) : cell_at 0 r = hd CNaN r.
Proof. now destruct r. Qed.

(** Reading a record back under a column label gives the entry of the row in
    the first column of that name. *)
Lemma lookup_to_record (cols : list (string * dtype)) (key : string) :
  forall row : list cell,
    lookup key (to_record cols row) =
    option_map (fun p => read (snd p) (cell_at (fst p) row)) (find_column key cols).
Proof.
  induction cols as [|[name t] cols IH]; intros row; simpl; [reflexivity|].
  destruct (String.eqb key name); simpl.
  - now rewrite cell_at_hd.
  - rewrite IH. destruct (find_column key cols) as [[i t']|]; simpl; [|reflexivity].
    now rewrite cell_at_tl.
Qed.

Lemma lookup_entry (df : DataFrame) (key : string) (row : list cell) :
  has_column df key = true ->
  lookup key (to_record (columns df) row) = Some (entry df key row).
Proof.
  unfold has_column, entry. rewrite lookup_to_record.
  destruct (find_column key (columns df)) as [[i t]|]; [reflexivity | discriminate].
Qed.

Lemma cell_eqb_eq (a b : cell) : cell_eqb a b = true <-> a = b.
Proof.
  destruct a, b; simpl; split; intros H; try discriminate; try reflexivity.
  - apply Z.eqb_eq in H. now subst.
  - injection H as ->. apply Z.eqb_refl.
  - apply String.eqb_eq in H. now subst.
  - injection H as ->. apply String.eqb_refl.
Qed.

(** ** One filter *)

(** The [.str] accessor accepts every column of strings and missing values. *)
Lemma str_accessor_text (vals : list cell) :
  (forall c, In c vals -> is_str c = true \/ is_na c = true) ->
  str_accessor (mkSeries object vals) = Returns vals.
Proof.
  intros Htext. unfold str_accessor; simpl.
  destruct (filter (fun c => negb (is_na c)) vals) as [|c rest] eqn:Hpresent;
    [reflexivity|].
  assert (Hc : In c (filter (fun c => negb (is_na c)) vals))
    by (rewrite Hpresent; now left).
  apply filter_In in Hc. destruct Hc as [Hin Hna].
  destruct (Htext c Hin) as [Hs|Hn].
  - simpl. now rewrite Hs.
  - rewrite Hn in Hna. discriminate.
Qed.

(** A usable filter returns the rows it passes, in their order, under the same
    columns. *)
Lemma filter_column_usable (beyond : Re.engine) (frame : DataFrame) (column : string)
    (value : option string) :
  usable beyond frame column value = true ->
  filter_column beyond frame column value =
  Returns (mkDataFrame (columns frame) (filter (passes beyond frame column value) (rows frame))).
Proof.
  unfold usable, filter_column, passes. destruct value as [pat|].
  2:{ intros _. now rewrite filter_all, frame_eta. }
  destruct (Py.truthy (Some pat)).
  2:{ intros _. now rewrite filter_all, frame_eta. }
  unfold text_column, getitem, entry.
  destruct (find_column column (columns frame)) as [[i t]|]; [|discriminate].
  destruct t; try discriminate.
  destruct (Re.compile_search beyond pat) as [found|] eqn:Hpat;
    [|rewrite andb_false_r; discriminate].
  rewrite andb_true_r. intros Htext. simpl.
  unfold str_contains. rewrite str_accessor_text.
  - simpl. rewrite Hpat. cbn [bind]. unfold getitem_mask.
    rewrite (select_map_map (fun row => cell_at i row)). reflexivity.
  - intros c Hin. apply in_map_iff in Hin. destruct Hin as [row [<- Hrow]].
    rewrite forallb_forall in Htext. specialize (Htext row Hrow).
    destruct (cell_at i row); simpl; auto; discriminate.
Qed.

(** Whether a filter is usable is not changed by dropping rows. *)
Lemma usable_fewer_rows (beyond : Re.engine) (frame : DataFrame) (column : string)
    (value : option string) (p : list cell -> bool) :
  usable beyond frame column value = true ->
  usable beyond (mkDataFrame (columns frame) (filter p (rows frame))) column value = true.
Proof.
  unfold usable. destruct value as [pat|]; [|reflexivity].
  destruct (Py.truthy (Some pat)); [|reflexivity].
  unfold text_column; simpl.
  destruct (find_column column (columns frame)) as [[i t]|]; [|discriminate].
  destruct t; try discriminate.
  destruct (Re.compile_search beyond pat); [|now rewrite andb_false_r].
  rewrite !andb_true_r, !forallb_forall.
  intros H row Hrow. apply filter_In in Hrow. now apply H.
Qed.

(** Both filters in sequence: the rows that pass both, in file order. *)
Lemma filters_usable (beyond : Re.engine) (df : DataFrame)
    (insname creddesc : option string) :
  usable beyond df "INSNAME" insname = true ->
  usable beyond df "CREDDESC" creddesc = true ->
  (filtered_df <- filter_column beyond df "INSNAME" insname ;;
   filter_column beyond filtered_df "CREDDESC" creddesc) =
  Returns (mkDataFrame (columns df)
             (filter (fun row => passes beyond df "INSNAME" insname row
                                 && passes beyond df "CREDDESC" creddesc row) (rows df))).
Proof.
  intros Hname Hcred.
  rewrite (filter_column_usable _ _ _ _ Hname). simpl.
  rewrite (filter_column_usable _ _ _ _ (usable_fewer_rows _ _ _ _ _ Hcred)). simpl.
  now rewrite filter_filter.
Qed.

(** Whenever a filter step returns, it returns the rows that the filter
    passes, under the same columns. *)
Lemma filter_column_returns (beyond : Re.engine) (frame out : DataFrame)
    (column : string) (value : option string) :
  filter_column beyond frame column value = Returns out ->
  out = mkDataFrame (columns frame) (filter (passes beyond frame column value) (rows frame)).
Proof.
  unfold filter_column, passes. destruct value as [pat|].
  2:{ intros H. injection H as <-. now rewrite filter_all, frame_eta. }
  destruct (Py.truthy (Some pat)).
  2:{ intros H. injection H as <-. now rewrite filter_all, frame_eta. }
  unfold getitem, entry.
  destruct (find_column column (columns frame)) as [[i t]|]; [|discriminate].
  cbn [bind]. unfold str_contains.
  destruct (str_accessor _) as [vals|] eqn:Hacc; try discriminate.
  assert (Hvals : vals = map (fun row => read t (cell_at i row)) (rows frame)).
  { unfold str_accessor in Hacc. cbn [s_dtype values] in Hacc.
    destruct t; try discriminate.
    destruct (filter _ _) as [|c rest]; [now injection Hacc as <-|].
    destruct (existsb is_str (c :: rest)); [now injection Hacc as <- | discriminate]. }
  subst vals. cbn [bind].
  destruct (Re.compile_search beyond pat) as [found|]; [|discriminate].
  cbn [bind]. intros H. injection H as <-.
  unfold getitem_mask.
  now rewrite (select_map_map (fun row => read t (cell_at i row))).
Qed.

(** Whenever both filter steps return, they return the rows that pass both
    filters, in file order. *)
Lemma filters_return (beyond : Re.engine) (df out : DataFrame)
    (insname creddesc : option string) :
  (filtered_df <- filter_column beyond df "INSNAME" insname ;;
   filter_column beyond filtered_df "CREDDESC" creddesc) = Returns out ->
  out = mkDataFrame (columns df)
          (filter (fun row => passes beyond df "INSNAME" insname row
                              && passes beyond df "CREDDESC" creddesc row) (rows df)).
Proof.
  destruct (filter_column beyond df "INSNAME" insname) as [f1|] eqn:H1;
    [|discriminate].
  cbn [bind]. intros H2.
  apply filter_column_returns in H1, H2. subst f1 out.
  cbn [rows columns]. now rewrite filter_filter.
Qed.

(** ** The list operation *)

(** C1. For every table, every page of at least 1 and every size within
    [1, 100], the answer of [get_records] is made of the rows that pass all
    supplied filters (a conjunction, over the whole table, in file order): the
    records at offsets [(page - 1) * size, (page - 1) * size + size) of that
    sequence, with [total_filtered] the number of matching rows and [size] the
    length of the window.  [get_records] returns that answer whenever every
    supplied filter can be evaluated (always, when none is supplied), and
    returns nothing else.  The window is no longer than [size] or than the
    matching rows, and is empty, not an error, when the offset is at or past
    their end. *)
Theorem get_records_filters_then_window :
  forall (beyond : Re.engine) (df : DataFrame) (page size : Z)
         (insname creddesc : option string),
    1 <= page ->
    1 <= size <= 100 ->
    let matching :=
      filter (fun row => passes beyond df "INSNAME" insname row
                         && passes beyond df "CREDDESC" creddesc row) (rows df) in
    let offset := Z.to_nat ((page - 1) * size) in
    let window := firstn (Z.to_nat size) (skipn offset matching) in
    let answer :=
      {| Listing.page := page;
         Listing.size := Py.len window;
         Listing.total_filtered := Py.len matching;
         Listing.data := map (to_record (columns df)) window |} in
    (usable beyond df "INSNAME" insname = true ->
     usable beyond df "CREDDESC" creddesc = true ->
     get_records beyond df page size insname creddesc = Returns answer)
    /\ (forall resp,
          get_records beyond df page size insname creddesc = Returns resp ->
          resp = answer)
    /\ (forall k : nat,
          nth_error window k =
          if (k <? Z.to_nat size)%nat then nth_error matching (offset + k) else None)
    /\ Py.len window <= size
    /\ Py.len window <= Py.len matching
    /\ (Py.len matching <= (page - 1) * size -> window = []).
Proof.
  intros beyond df page size insname creddesc Hpage Hsize
         matching offset window answer.
  assert (Hoff : 0 <= (page - 1) * size) by nia.
  assert (Hrun : forall out,
             (filtered_df <- filter_column beyond df "INSNAME" insname ;;
              filter_column beyond filtered_df "CREDDESC" creddesc) = Returns out ->
             get_records beyond df page size insname creddesc = Returns answer).
  { intros out Hout. pose proof (filters_return _ _ _ _ _ Hout) as ->.
    unfold get_records. cbv zeta. unfold bind in Hout |- *.
    destruct (filter_column beyond df "INSNAME" insname) as [f1|]; try discriminate.
    rewrite Hout.
    unfold to_dict_records, iloc, len; cbn [rows columns].
    rewrite slice_window by lia.
    fold matching. fold offset. fold window.
    unfold answer, Py.len. now rewrite length_map. }
  split; [|split; [|repeat split]].
  - intros Hname Hcred.
    apply (Hrun _ (filters_usable beyond df insname creddesc Hname Hcred)).
  - intros resp Hresp.
    assert (Hout : exists out,
               (filtered_df <- filter_column beyond df "INSNAME" insname ;;
                filter_column beyond filtered_df "CREDDESC" creddesc) = Returns out).
    { unfold get_records in Hresp. cbv zeta in Hresp. unfold bind in Hresp |- *.
      destruct (filter_column beyond df "INSNAME" insname) as [f1|]; try discriminate.
      destruct (filter_column beyond f1 "CREDDESC" creddesc) as [f2|]; try discriminate.
      now exists f2. }
    destruct Hout as [out Hout]. rewrite (Hrun out Hout) in Hresp.
    now injection Hresp as <-.
  - intros k. apply nth_error_window.
  - unfold Py.len, window. rewrite length_firstn. lia.
  - unfold Py.len, window. rewrite length_firstn, length_skipn. lia.
  - intros Hpast. unfold window.
    rewrite skipn_all2; [apply firstn_nil|].
    unfold Py.len in Hpast. unfold offset. lia.
Qed.

Lemma get_records_filters_then_window_witness :
  get_records Re.refuse_others scenario 2 1 (Some "ALPHA") (Some "of") =
  Returns {| Listing.page := 2;
             Listing.size := 1;
             Listing.total_filtered := 2;
             Listing.data :=
               [ [("INSID", CInt 1); ("INSNAME", CStr "Alpha College");
                  ("CREDDESC", CStr "Master of Arts"); ("CREDLEV", CInt 5)] ] |}.
Proof.
  refine (proj1 (get_records_filters_then_window
                   Re.refuse_others scenario 2 1 (Some "ALPHA") (Some "of") _ _) _ _);
    [lia | lia | reflexivity | reflexivity].
Defined.

(** ** The filter value: substring or pattern *)

(** [is_substring] says what it should: the needle sits between two pieces of
    the haystack. *)
Lemma is_prefix_iff (p s : string) :
  is_prefix p s = true <-> exists v, s = String.append p v.
Proof.
  revert s. induction p as [|a p IH]; intros s; simpl.
  - split; [intros _; now exists s | reflexivity].
  - destruct s as [|b s].
    + split; [discriminate | intros [v Hv]; discriminate].
    + rewrite andb_true_iff, IH. split.
      * intros [Hab [v ->]]. apply Ascii.eqb_eq in Hab. subst. now exists v.
      * intros [v Hv]. injection Hv as -> ->.
        split; [apply Ascii.eqb_refl | now exists v].
Qed.

Lemma is_substring_iff (p s : string) :
  is_substring p s = true <-> exists u v, s = String.append u (String.append p v).
Proof.
  induction s as [|b s IH].
  - simpl. rewrite orb_false_r, is_prefix_iff. split.
    + intros [v Hv]. now exists EmptyString, v.
    + intros [u [v Hv]]. destruct u; simpl in Hv; [now exists v | discriminate].
  - cbn [is_substring]. rewrite orb_true_iff, is_prefix_iff, IH. split.
    + intros [[v Hv]|[u [v Hv]]].
      * now exists EmptyString, v.
      * exists (String b u), v. simpl. now rewrite Hv.
    + intros [u [v Hv]]. destruct u as [|c u]; simpl in Hv.
      * left. now exists v.
      * right. injection Hv as _ Hv. now exists u, v.
Qed.

Lemma plain_char_cases (c : ascii) :
  plain_char c = true ->
  Ascii.eqb c Re.backslash = false /\ Ascii.eqb c "." = false
  /\ Re.special c || negb (Py.is_ascii c) = false.
Proof.
  unfold plain_char. intros H. apply andb_true_iff in H. destruct H as [Hs Ha].
  apply negb_true_iff in Hs. rewrite Hs, Ha. repeat split.
  - destruct (Ascii.eqb_spec c Re.backslash) as [->|]; [discriminate Hs | reflexivity].
  - destruct (Ascii.eqb_spec c ".") as [->|]; [discriminate Hs | reflexivity].
Qed.

Lemma compile_plain (value : string) :
  plain value = true -> Re.compile value = Re.Pattern (literal value).
Proof.
  induction value as [|c rest IH]; simpl; [reflexivity|].
  intros H. apply andb_true_iff in H. destruct H as [Hc Hrest].
  destruct (plain_char_cases c Hc) as [Hb [Hd Hs]].
  rewrite Hb, Hd, Hs, (IH Hrest). reflexivity.
Qed.

Lemma match_here_literal (value s : string) :
  Re.match_here (literal value) s = is_prefix (Py.str_lower value) (Py.str_lower s).
Proof.
  revert s. induction value as [|c rest IH]; intros s; simpl; [reflexivity|].
  destruct s as [|d s]; simpl; [reflexivity|]. now rewrite IH.
Qed.

Lemma search_literal (value s : string) :
  Re.search (literal value) s = contains_ignoring_case value s.
Proof.
  unfold contains_ignoring_case. induction s as [|d s IH].
  - simpl. now rewrite match_here_literal.
  - cbn [Re.search Py.str_lower is_substring]. rewrite IH.
    now rewrite match_here_literal.
Qed.

(** For a plain filter value the pattern search is the substring test: the
    rows kept are those whose entry contains the value, case ignored. *)
Lemma plain_filter_is_substring (beyond : Re.engine) (df : DataFrame)
    (column value : string) (row : list cell) :
  plain value = true ->
  value <> EmptyString ->
  passes beyond df column (Some value) row =
  match entry df column row with
  | CStr x => contains_ignoring_case value x
  | CInt _ | CNaN => false
  end.
Proof.
  intros Hplain Hne. unfold passes.
  replace (Py.truthy (Some value)) with true by (now destruct value).
  unfold Re.compile_search. rewrite (compile_plain _ Hplain).
  destruct (entry df column row); try reflexivity. apply search_literal.
Qed.

Lemma lower_upper (c : ascii) : Py.lower (Py.upper c) = Py.lower c.
Proof.
  destruct c as [[] [] [] [] [] [] [] []]; reflexivity.
Qed.

Lemma lower_lower (c : ascii) : Py.lower (Py.lower c) = Py.lower c.
Proof.
  destruct c as [[] [] [] [] [] [] [] []]; reflexivity.
Qed.

Lemma plain_char_upper (c : ascii) : plain_char (Py.upper c) = plain_char c.
Proof.
  destruct c as [[] [] [] [] [] [] [] []]; reflexivity.
Qed.

Lemma plain_char_lower (c : ascii) : plain_char (Py.lower c) = plain_char c.
Proof.
  destruct c as [[] [] [] [] [] [] [] []]; reflexivity.
Qed.

Lemma plain_str_upper (value : string) : plain (Py.str_upper value) = plain value.
Proof.
  induction value as [|c rest IH]; simpl; [reflexivity|].
  now rewrite plain_char_upper, IH.
Qed.

Lemma plain_str_lower (value : string) : plain (Py.str_lower value) = plain value.
Proof.
  induction value as [|c rest IH]; simpl; [reflexivity|].
  now rewrite plain_char_lower, IH.
Qed.

Lemma str_lower_upper (s : string) : Py.str_lower (Py.str_upper s) = Py.str_lower s.
Proof.
  induction s as [|c s IH]; simpl; [reflexivity|]. now rewrite lower_upper, IH.
Qed.

Lemma str_lower_lower (s : string) : Py.str_lower (Py.str_lower s) = Py.str_lower s.
Proof.
  induction s as [|c s IH]; simpl; [reflexivity|]. now rewrite lower_lower, IH.
Qed.

(** For a plain filter value, its upper-cased and lower-cased variants pass
    the same rows. *)
Lemma plain_filter_case_variants (beyond : Re.engine) (df : DataFrame)
    (column value : string) (row : list cell) :
  plain value = true ->
  passes beyond df column (Some (Py.str_upper value)) row
  = passes beyond df column (Some value) row
  /\ passes beyond df column (Some (Py.str_lower value)) row
     = passes beyond df column (Some value) row.
Proof.
  intros Hplain. destruct value as [|c rest]; [now split|].
  split.
  - rewrite !plain_filter_is_substring;
      [| assumption | discriminate | now rewrite plain_str_upper | discriminate].
    destruct (entry df column row); try reflexivity.
    unfold contains_ignoring_case. now rewrite str_lower_upper.
  - rewrite !plain_filter_is_substring;
      [| assumption | discriminate | now rewrite plain_str_lower | discriminate].
    destruct (entry df column row); try reflexivity.
    unfold contains_ignoring_case. now rewrite str_lower_lower.
Qed.

(** C2, at the inputs where the code departs from it.  The filter value is
    compiled as a regular expression: with [insname = "a.c"] the record named
    "abc" is kept although "a.c" does not occur in "abc"; the filter "\d" on
    CREDDESC keeps one record where its upper-cased variant "\D" keeps two;
    and a filter value that is a lone backslash does not compile, so the
    request ends in an exception (a 500). *)
Theorem filter_value_is_compiled_as_pattern :
  forall beyond : Re.engine,
  get_records beyond codes 1 10 (Some "a.c") None =
    Returns {| Listing.page := 1;
               Listing.size := 2;
               Listing.total_filtered := 2;
               Listing.data :=
                 [ [("INSID", CInt 1); ("INSNAME", CStr "abc");
                    ("CREDDESC", CStr "Unit 7"); ("CREDLEV", CInt 1)];
                   [("INSID", CInt 2); ("INSNAME", CStr "a.c");
                    ("CREDDESC", CStr "Unit B"); ("CREDLEV", CInt 1)] ] |}
  /\ contains_ignoring_case "a.c" "abc" = false
  /\ get_records beyond codes 1 10 None (Some "\d") =
    Returns {| Listing.page := 1;
               Listing.size := 1;
               Listing.total_filtered := 1;
               Listing.data :=
                 [ [("INSID", CInt 1); ("INSNAME", CStr "abc");
                    ("CREDDESC", CStr "Unit 7"); ("CREDLEV", CInt 1)] ] |}
  /\ Py.str_upper "\d" = "\D"
  /\ get_records beyond codes 1 10 None (Some "\D") =
    Returns {| Listing.page := 1;
               Listing.size := 2;
               Listing.total_filtered := 2;
               Listing.data := to_dict_records codes |}
  /\ get_records beyond codes 1 10 (Some "\") None = Raises ReError
  /\ status_of ReError = 500.
Proof. intros beyond. repeat split. Qed.

(** ** Doubles *)

Lemma to_double_pos_below (n : Z) : n < 2 ^ 53 -> to_double_pos n = n.
Proof.
  intros Hn. unfold to_double_pos.
  assert (Hlog : Z.log2 n < 53).
  { destruct (Z_le_gt_dec n 0) as [H0|H0].
    - rewrite Z.log2_nonpos by lia. lia.
    - apply Z.log2_lt_pow2; lia. }
  destruct (Z.leb_spec (Z.log2 n + 1 - 53) 0); [reflexivity | lia].
Qed.

(** A significand of 53 bits, scaled by a power of two, is a double. *)
Lemma to_double_pos_scaled (m e : Z) :
  0 <= e -> 2 ^ 52 <= m < 2 ^ 53 -> to_double_pos (m * 2 ^ e) = m * 2 ^ e.
Proof.
  intros He Hm. unfold to_double_pos.
  assert (Hp : 0 < 2 ^ e) by (apply Z.pow_pos_nonneg; lia).
  assert (Hlog : Z.log2 (m * 2 ^ e) = 52 + e).
  { apply Z.log2_unique; [lia|].
    replace (2 ^ (52 + e)) with (2 ^ 52 * 2 ^ e)
      by (rewrite <- Z.pow_add_r by lia; reflexivity).
    replace (2 ^ Z.succ (52 + e)) with (2 ^ 53 * 2 ^ e)
      by (rewrite <- Z.pow_add_r by lia; f_equal; lia).
    split; [apply Z.mul_le_mono_nonneg_r; lia | apply Z.mul_lt_mono_pos_r; lia]. }
  rewrite Hlog. replace (52 + e + 1 - 53) with e by lia.
  destruct (Z.leb_spec e 0) as [H0|H0]; [reflexivity|].
  cbv zeta. rewrite Z.div_mul, Z.mod_mul by lia.
  unfold round_half_even.
  assert (Hhalf : 0 < 2 ^ e / 2).
  { replace e with (1 + (e - 1)) by lia. rewrite Z.pow_add_r by lia.
    change (2 ^ 1) with 2. rewrite Z.mul_comm, Z.div_mul by lia.
    apply Z.pow_pos_nonneg; lia. }
  destruct (Z.ltb_spec (2 ^ e / 2) 0); [lia|].
  destruct (Z.eqb_spec 0 (2 ^ e / 2)); [lia|]. reflexivity.
Qed.

Lemma to_double_pos_scaled_top (e : Z) :
  0 <= e -> to_double_pos (2 ^ 53 * 2 ^ e) = 2 ^ 53 * 2 ^ e.
Proof.
  intros He. replace (2 ^ 53 * 2 ^ e) with (2 ^ 52 * 2 ^ (e + 1)).
  - apply to_double_pos_scaled; lia.
  - rewrite (Z.pow_add_r 2 e 1) by lia. change (2 ^ 1) with 2.
    change (2 ^ 53) with (2 ^ 52 * 2). lia.
Qed.

(** The shape of a rounded number. *)
Lemma to_double_pos_shape (n : Z) :
  2 ^ 53 <= n ->
  exists m e, 0 <= e /\ 2 ^ 52 <= m <= 2 ^ 53 /\ to_double_pos n = m * 2 ^ e.
Proof.
  intros Hn. unfold to_double_pos.
  assert (Hpos : 0 < n) by lia.
  pose proof (Z.log2_spec n Hpos) as [Hlo Hhi].
  assert (Hlog : 53 <= Z.log2 n) by (apply Z.log2_le_pow2; lia).
  set (e := Z.log2 n + 1 - 53) in *.
  destruct (Z.leb_spec e 0) as [H0|H0].
  - exists n, 0. assert (Z.log2 n = 52) by lia. lia.
  - cbv zeta.
    assert (Hp : 0 < 2 ^ e) by (apply Z.pow_pos_nonneg; lia).
    assert (E1 : 2 ^ Z.log2 n = 2 ^ 52 * 2 ^ e).
    { rewrite <- Z.pow_add_r by lia. f_equal. lia. }
    assert (E2 : 2 ^ Z.succ (Z.log2 n) = 2 ^ 53 * 2 ^ e).
    { rewrite <- Z.pow_add_r by lia. f_equal. lia. }
    rewrite E1 in Hlo. rewrite E2 in Hhi.
    assert (Hq : 2 ^ 52 <= n / 2 ^ e < 2 ^ 53).
    { split; [apply Z.div_le_lower_bound; lia | apply Z.div_lt_upper_bound; lia]. }
    exists (round_half_even (n / 2 ^ e) (n mod 2 ^ e) (2 ^ e / 2)), e.
    split; [lia|]. split; [|reflexivity].
    unfold round_half_even. destruct (_ || _); lia.
Qed.

Lemma to_double_pos_idem (n : Z) :
  to_double_pos (to_double_pos n) = to_double_pos n.
Proof.
  destruct (Z_lt_le_dec n (2 ^ 53)) as [Hsmall|Hbig].
  - now rewrite !(to_double_pos_below n Hsmall).
  - destruct (to_double_pos_shape n Hbig) as [m [e [He [Hm ->]]]].
    destruct (Z.eq_dec m (2 ^ 53)) as [->|Hne].
    + now apply to_double_pos_scaled_top.
    + apply to_double_pos_scaled; lia.
Qed.

Lemma to_double_pos_positive (n : Z) : 0 < n -> 0 < to_double_pos n.
Proof.
  intros Hn. destruct (Z_lt_le_dec n (2 ^ 53)) as [Hsmall|Hbig].
  - now rewrite (to_double_pos_below n Hsmall).
  - destruct (to_double_pos_shape n Hbig) as [m [e [He [Hm ->]]]].
    assert (0 < 2 ^ e) by (apply Z.pow_pos_nonneg; lia). nia.
Qed.

Lemma to_double_idem (z : Z) : to_double (to_double z) = to_double z.
Proof.
  unfold to_double. destruct (Z.ltb_spec z 0) as [Hneg|Hpos].
  - pose proof (to_double_pos_positive (- z)) as H.
    destruct (Z.ltb_spec (- to_double_pos (- z)) 0); [|lia].
    now rewrite Z.opp_involutive, to_double_pos_idem.
  - destruct (Z.ltb_spec (to_double_pos z) 0) as [H|H].
    + destruct (Z.eq_dec z 0) as [->|Hz]; [discriminate H|].
      pose proof (to_double_pos_positive z). lia.
    + apply to_double_pos_idem.
Qed.

Lemma to_double_small (z : Z) : Z.abs z <= 2 ^ 53 -> to_double z = z.
Proof.
  intros Hz. unfold to_double. destruct (Z.ltb_spec z 0).
  - destruct (Z.eq_dec (- z) (2 ^ 53)) as [E|E].
    + rewrite E. replace z with (- 2 ^ 53) by lia. reflexivity.
    + rewrite to_double_pos_below; lia.
  - destruct (Z.eq_dec z (2 ^ 53)) as [->|E]; [reflexivity|].
    apply to_double_pos_below. lia.
Qed.

Example tie_to_even :
  to_double (2 ^ 53 + 1) = 2 ^ 53 /\ to_double (2 ^ 53 + 3) = 2 ^ 53 + 4
  /\ to_double (- (2 ^ 53 + 1)) = - 2 ^ 53.
Proof. repeat split. Qed.

(** ** Lookup by INSID *)

(** The rows whose INSID entry is the number sought, in file order. *)
Lemma by_insid_rows (far : far_compare) (df : DataFrame) (id : Z) :
  has_column df "INSID" = true ->
  certain df id = true ->
  get_records_by_insid far df id =
  match map (to_record (columns df))
            (filter (fun row => cell_eqb (entry df "INSID" row) (CInt (sought df id)))
                    (rows df)) with
  | [] =>
      Raises (HTTPException 404
                (String.append "No records found for INSID " (Py.str_of_int id)))
  | r :: rest =>
      Returns {| ById.insid := id;
                 ById.count := Py.len (r :: rest);
                 ById.data := r :: rest |}
  end.
Proof.
  unfold has_column, certain, sought, insid_dtype, get_records_by_insid, getitem, entry.
  destruct (find_column "INSID" (columns df)) as [[i t]|]; [intros _ | discriminate].
  cbn [option_map snd bind]. intros Hcertain.
  assert (Hmask : eq_int far (mkSeries t (map (fun row => read t (cell_at i row)) (rows df))) id
                  = Returns (map (fun row => cell_eqb (read t (cell_at i row))
                                               (CInt (match t with
                                                      | float64 => to_double id
                                                      | _ => id
                                                      end))) (rows df))).
  { unfold eq_int. cbn [s_dtype values].
    destruct t; try rewrite Hcertain; cbn [bind]; rewrite map_map; reflexivity. }
  rewrite Hmask. cbn [bind].
  unfold to_dict_records, getitem_mask. cbn [rows columns].
  rewrite select_map.
  destruct t; now destruct (map (to_record (columns df)) _).
Qed.

Lemma str_of_int_inj (a b : Z) : Py.str_of_int a = Py.str_of_int b -> a = b.
Proof.
  unfold Py.str_of_int. intros H.
  assert (Hnil : forall z, Z.to_int z <> Decimal.Pos Decimal.Nil
                           /\ Z.to_int z <> Decimal.Neg Decimal.Nil).
  { intros [|p|p]; simpl; split; try discriminate;
      intros E; injection E as E; now apply DecimalPos.Unsigned.to_uint_nonnil in E. }
  apply (f_equal NilZero.int_of_string) in H.
  rewrite !NilZero.isi in H by apply Hnil.
  injection H as H. now apply DecimalZ.to_int_inj.
Qed.

(** An id is compared as it stands on a column that does not hold doubles,
    and whenever a double holds it, as is the case up to 2^53. *)
Lemma sought_exact (df : DataFrame) (id : Z) :
  insid_dtype df <> Some float64 \/ is_double id = true -> sought df id = id.
Proof.
  unfold sought, is_double. intros [H|H].
  - destruct (insid_dtype df) as [[]|]; try reflexivity. now contradiction H.
  - apply andb_true_iff in H. destruct H as [H _].
    apply Z.eqb_eq in H. now destruct (insid_dtype df) as [[]|].
Qed.

Lemma is_double_small (id : Z) : Z.abs id <= 2 ^ 53 -> is_double id = true.
Proof.
  intros H. unfold is_double, finite. rewrite (to_double_small _ H), Z.eqb_refl.
  apply Z.ltb_lt. assert (2 ^ 53 < 2 ^ 1024) by (apply Z.pow_lt_mono_r; lia). lia.
Qed.

(** Every 64-bit id is compared as modelled, whatever the column holds. *)
Lemma certain_fits (df : DataFrame) (id : Z) :
  fits_int64 id = true -> certain df id = true.
Proof.
  unfold certain. intros ->. now destruct (insid_dtype df) as [[]|].
Qed.

(** An id that occurs in the INSID column is compared as it stands. *)
Lemma occurring_exact (df : DataFrame) (id : Z) :
  In (CInt id) (column_entries df "INSID") ->
  certain df id = true /\ sought df id = id.
Proof.
  unfold column_entries, entry, certain, sought, insid_dtype.
  destruct (find_column "INSID" (columns df)) as [[i t]|]; cbn [option_map snd].
  - intros Hin. apply in_map_iff in Hin. destruct Hin as [row [Hrow _]].
    destruct t; try (now split);
      (destruct (cell_at i row) as [z| |]; try discriminate); cbn [read] in Hrow.
    + destruct (fits_int64 z) eqn:Hfits; [|discriminate].
      injection Hrow as <-. now split.
    + destruct (finite (to_double z)) eqn:Hfinite; [|discriminate].
      injection Hrow as <-.
      unfold is_double. rewrite to_double_idem, Z.eqb_refl, Hfinite, orb_true_r.
      now split.
  - intros _. now split.
Qed.

(** What the lookup does.  On a table with an INSID column, for an id whose
    comparison is modelled (every 64-bit id, and every id the column can
    hold), [get_records_by_insid id] returns the records whose INSID is the
    number sought, in file order, with their count, and fails with a 404
    whose message names [id] exactly when there is none, as when that number
    does not occur in the table.  The number sought is [id] itself on a
    column of integers, and for every id that a double holds (in particular
    up to 2^53 in magnitude); on a column of doubles it is the double nearest
    to [id]. *)
Theorem get_records_by_insid_matches_or_404 :
  forall (far : far_compare) (df : DataFrame) (id : Z),
    has_column df "INSID" = true ->
    certain df id = true ->
    let matching :=
      filter (fun row => cell_eqb (entry df "INSID" row) (CInt (sought df id)))
             (rows df) in
    let not_found :=
      HTTPException 404 (String.append "No records found for INSID " (Py.str_of_int id)) in
    (matching <> [] ->
     get_records_by_insid far df id =
       Returns {| ById.insid := id;
                  ById.count := Py.len matching;
                  ById.data := map (to_record (columns df)) matching |})
    /\ (matching = [] -> get_records_by_insid far df id = Raises not_found)
    /\ ((exists e, get_records_by_insid far df id = Raises e) <-> matching = [])
    /\ status_of not_found = 404
    /\ ((forall row, In row (rows df) -> entry df "INSID" row <> CInt (sought df id)) ->
        get_records_by_insid far df id = Raises not_found)
    /\ (insid_dtype df <> Some float64 \/ is_double id = true -> sought df id = id)
    /\ (Z.abs id <= 2 ^ 53 -> is_double id = true)
    /\ (insid_dtype df = Some float64 -> sought df id = to_double id).
Proof.
  intros far df id Hcol Hcertain matching not_found.
  pose proof (by_insid_rows far df id Hcol Hcertain) as Hrun. fold matching in Hrun.
  assert (Hsome : matching <> [] ->
                  get_records_by_insid far df id =
                  Returns {| ById.insid := id;
                             ById.count := Py.len matching;
                             ById.data := map (to_record (columns df)) matching |}).
  { intros Hne. rewrite Hrun.
    destruct matching as [|row rest]; [contradiction|].
    cbn [map]. unfold Py.len. cbn [List.length]. now rewrite length_map. }
  assert (Hnone : matching = [] -> get_records_by_insid far df id = Raises not_found).
  { intros Hnil. rewrite Hrun, Hnil. reflexivity. }
  split; [exact Hsome|]. split; [exact Hnone|]. split; [split|].
  - intros [e He]. destruct matching as [|row rest] eqn:Hm; [reflexivity|].
    rewrite Hsome in He by discriminate. discriminate.
  - intros Hnil. exists not_found. now apply Hnone.
  - split; [reflexivity|]. split; [|split; [apply sought_exact|split]].
    + intros Habsent. apply Hnone.
      destruct matching as [|row rest] eqn:Hm; [reflexivity|].
      assert (Hin : In row matching) by (rewrite Hm; now left).
      apply filter_In in Hin. destruct Hin as [Hrow Heq].
      apply cell_eqb_eq in Heq. now apply Habsent in Hrow.
    + apply is_double_small.
    + unfold sought. now intros ->.
Qed.

Lemma get_records_by_insid_matches_or_404_witness :
  get_records_by_insid far_overflows scenario 1 =
    Returns {| ById.insid := 1;
               ById.count := 2;
               ById.data :=
                 [ [("INSID", CInt 1); ("INSNAME", CStr "Alpha U");
                    ("CREDDESC", CStr "Bachelor of Science"); ("CREDLEV", CInt 3)];
                   [("INSID", CInt 1); ("INSNAME", CStr "Alpha College");
                    ("CREDDESC", CStr "Master of Arts"); ("CREDLEV", CInt 5)] ] |}
  /\ get_records_by_insid far_overflows scenario 9 =
    Raises (HTTPException 404 "No records found for INSID 9").
Proof.
  split.
  - refine (proj1 (get_records_by_insid_matches_or_404 far_overflows scenario 1 _ _) _);
      [reflexivity | reflexivity | discriminate].
  - refine (proj1 (proj2 (get_records_by_insid_matches_or_404
                            far_overflows scenario 9 _ _)) _);
      reflexivity.
Defined.

(** C3, at the input where the code departs from it.  On a table whose INSID
    column is held as doubles (it has a gap), the lookup of 2^53 + 1 returns
    the record whose INSID is 2^53, under the id asked for and with a count
    of 1, although no record of the table has that INSID and the claim asks
    for the 404: the id is rounded to the nearest double before it is
    compared.  The lookup of 2^53 itself returns the same record, and the
    request [GET /records/9007199254740993] is answered with what the handler
    returned. *)
Theorem lookup_rounds_id_on_doubles :
  forall far : far_compare,
    get_records_by_insid far float_ids 9007199254740993 =
      Returns {| ById.insid := 9007199254740993;
                 ById.count := 1;
                 ById.data :=
                   [ [("INSID", CInt 9007199254740992); ("INSNAME", CStr "Alpha U")] ] |}
    /\ keyed (entry float_ids "INSID") 9007199254740993 (rows float_ids) = []
    /\ get_records_by_insid far float_ids 9007199254740992 =
         Returns {| ById.insid := 9007199254740992;
                    ById.count := 1;
                    ById.data :=
                      [ [("INSID", CInt 9007199254740992); ("INSNAME", CStr "Alpha U")] ] |}
    /\ serve_records_by_insid far float_ids (Int 9007199254740993)
       = get_records_by_insid far float_ids 9007199254740993.
Proof. intros far. repeat split. Qed.

(** ** Statistics *)

Lemma distinct_In (l : list cell) (x : cell) : In x (distinct l) <-> In x l.
Proof.
  induction l as [|c l IH]; simpl; [tauto|].
  rewrite filter_In, IH, negb_true_iff. split.
  - intros [H|[H _]]; auto.
  - intros [H|H]; [now left|].
    destruct (cell_eqb x c) eqn:E; [left | now right].
    apply cell_eqb_eq in E. now subst.
Qed.

Lemma distinct_NoDup (l : list cell) : NoDup (distinct l).
Proof.
  induction l as [|c l IH]; simpl; constructor.
  - rewrite filter_In, negb_true_iff. intros [_ H].
    assert (E : cell_eqb c c = true) by now apply cell_eqb_eq.
    congruence.
  - now apply NoDup_filter.
Qed.

(** The scan that [unique] runs, started with a set of entries already seen,
    yields the first occurrences that are not among them. *)
Lemma first_occurrences_distinct (l seen : list cell) :
  first_occurrences seen l =
  filter (fun c => negb (existsb (cell_eqb c) seen)) (distinct l).
Proof.
  revert seen. induction l as [|c l IH]; intros seen; simpl; [reflexivity|].
  destruct (existsb (cell_eqb c) seen) eqn:Hseen; simpl.
  - rewrite IH, filter_filter. apply filter_ext. intros x.
    destruct (cell_eqb x c) eqn:E; simpl; [|reflexivity].
    apply cell_eqb_eq in E. subst. now rewrite Hseen.
  - rewrite IH, filter_filter. f_equal. apply filter_ext. intros x.
    simpl. now rewrite negb_orb.
Qed.

Lemma unique_distinct (s : Series) : unique s = distinct (values s).
Proof.
  unfold unique. rewrite first_occurrences_distinct. apply filter_all.
Qed.

Lemma nunique_distinct (s : Series) : nunique s = Py.len (distinct (present (values s))).
Proof.
  unfold nunique, present. rewrite first_occurrences_distinct. now rewrite filter_all.
Qed.

Lemma getitem_column (df : DataFrame) (column : string) :
  has_column df column = true ->
  exists t, getitem df column = Returns (mkSeries t (column_entries df column)).
Proof.
  unfold has_column, getitem, column_entries, entry.
  destruct (find_column column (columns df)) as [[i t]|]; [|discriminate].
  intros _. now exists t.
Qed.

(** C4. On a table with the columns INSNAME, CREDDESC and CREDLEV,
    [get_stats] returns the number of distinct institution names and the
    number of distinct credential descriptions over the whole table (an entry
    that is missing is not a name or a description and is not counted), and
    the CREDLEV entries with duplicates removed, each where it first occurs,
    unsorted (a missing level, if there is one, is listed once, as NaN). *)
Theorem get_stats_distinct_counts_and_levels :
  forall df : DataFrame,
    has_column df "INSNAME" = true ->
    has_column df "CREDDESC" = true ->
    has_column df "CREDLEV" = true ->
    let levels := distinct (column_entries df "CREDLEV") in
    get_stats df =
      Returns {| Stats.unique_institutions :=
                   Py.len (distinct (present (column_entries df "INSNAME")));
                 Stats.unique_credentials :=
                   Py.len (distinct (present (column_entries df "CREDDESC")));
                 Stats.credential_levels := levels |}
    /\ NoDup levels
    /\ (forall c, In c levels <-> In c (column_entries df "CREDLEV")).
Proof.
  intros df Hname Hcred Hlev levels. repeat split.
  - unfold get_stats.
    destruct (getitem_column df _ Hname) as [t1 ->].
    destruct (getitem_column df _ Hcred) as [t2 ->].
    destruct (getitem_column df _ Hlev) as [t3 ->].
    cbn [bind]. now rewrite !nunique_distinct, unique_distinct.
  - apply distinct_NoDup.
  - apply distinct_In.
  - apply distinct_In.
Qed.

Lemma get_stats_distinct_counts_and_levels_witness :
  get_stats scenario =
    Returns {| Stats.unique_institutions := 3;
               Stats.unique_credentials := 3;
               Stats.credential_levels := [CInt 3; CInt 5] |}.
Proof.
  refine (proj1 (get_stats_distinct_counts_and_levels scenario _ _ _));
    reflexivity.
Defined.

(** How [get_stats] treats gaps: the missing name is not counted, the missing
    level is listed. *)
Example get_stats_with_gaps :
  get_stats with_gaps =
    Returns {| Stats.unique_institutions := 2;
               Stats.unique_credentials := 1;
               Stats.credential_levels := [CInt 3; CNaN] |}.
Proof. reflexivity. Qed.

(** ** The table that is served when the file is missing *)

Lemma slice_nil {A : Type} (start stop : Z) : Py.slice (@nil A) start stop = [].
Proof. unfold Py.slice. now rewrite skipn_nil, firstn_nil. Qed.

Lemma get_records_no_rows (beyond : Re.engine) (cols : list (string * dtype))
    (page size : Z) :
  get_records beyond (mkDataFrame cols []) page size None None =
  Returns {| Listing.page := page;
             Listing.size := 0;
             Listing.total_filtered := 0;
             Listing.data := [] |}.
Proof.
  unfold get_records, filter_column, bind, to_dict_records, iloc, len.
  cbn [rows columns]. now rewrite slice_nil.
Qed.

(** C5, at the inputs where the code departs from it.  Without the file the
    handlers run on [pd.DataFrame()], which has no columns: an unfiltered
    listing is empty, but every lookup by INSID, the statistics, and every
    filtered listing raise [KeyError], which the framework answers with a
    500. *)
Theorem missing_file_frame_has_no_columns :
  forall (beyond : Re.engine) (far : far_compare) (id page size : Z) (c : ascii)
         (value : string) (other : option string),
    startup_df None = Pd.empty
    /\ get_records beyond (startup_df None) page size None None =
         Returns {| Listing.page := page;
                    Listing.size := 0;
                    Listing.total_filtered := 0;
                    Listing.data := [] |}
    /\ get_records_by_insid far (startup_df None) id = Raises (KeyError "INSID")
    /\ get_stats (startup_df None) = Raises (KeyError "INSNAME")
    /\ get_records beyond (startup_df None) page size (Some (String c value)) other =
         Raises (KeyError "INSNAME")
    /\ get_records beyond (startup_df None) page size None (Some (String c value)) =
         Raises (KeyError "CREDDESC")
    /\ status_of (KeyError "INSID") = 500.
Proof.
  intros beyond far id page size c value other. repeat split.
  apply get_records_no_rows.
Qed.

(** A table with the columns and no row is what the claim describes: empty
    listing, 404 for every 64-bit id, zero counts and no level. *)
Lemma header_only_table (beyond : Re.engine) (far : far_compare) (id page size : Z) :
  let df := mkDataFrame trial_columns [] in
  get_records beyond df page size None None =
    Returns {| Listing.page := page;
               Listing.size := 0;
               Listing.total_filtered := 0;
               Listing.data := [] |}
  /\ (fits_int64 id = true ->
      get_records_by_insid far df id =
        Raises (HTTPException 404
                  (String.append "No records found for INSID " (Py.str_of_int id))))
  /\ get_stats df =
       Returns {| Stats.unique_institutions := 0;
                  Stats.unique_credentials := 0;
                  Stats.credential_levels := [] |}.
Proof.
  intros df. split; [apply get_records_no_rows|]. split; [|reflexivity].
  intros Hfits. now rewrite (by_insid_rows far df id eq_refl (certain_fits df id Hfits)).
Qed.

(** ** The boundary *)

(** C6. A request to [/records] whose page is malformed or below 1, or whose
    size is malformed, below 1 or above 100, is answered with a validation
    error (422) whatever the table holds, so no handler runs; any other
    request reaches [get_records] with a page of at least 1 and a size within
    [1, 100].  A malformed [insid] in [/records/{insid}] is refused in the
    same way. *)
Theorem boundary_rejects_before_handler :
  forall (beyond : Re.engine) (far : far_compare) (page size : option raw_int)
         (insname creddesc : option string),
    (out_of_range_page page || out_of_range_size size = true ->
     forall df, route_records beyond df page size insname creddesc
                = Raises RequestValidationError)
    /\ (out_of_range_page page || out_of_range_size size = false ->
        exists p s,
          1 <= p /\ 1 <= s <= 100
          /\ forall df, route_records beyond df page size insname creddesc
                        = get_records beyond df p s insname creddesc)
    /\ status_of RequestValidationError = 422
    /\ (forall df, route_records_by_insid far df Malformed = Raises RequestValidationError)
    /\ (forall df z, route_records_by_insid far df (Int z) = get_records_by_insid far df z).
Proof.
  intros beyond far page size insname creddesc.
  split; [|split; [|repeat split]].
  - intros Hbad df. unfold route_records, Query, in_range.
    apply orb_true_iff in Hbad. destruct Hbad as [Hbad|Hbad].
    + destruct page as [[|z]|]; simpl in Hbad; try discriminate; [reflexivity|].
      apply Z.ltb_lt in Hbad.
      destruct (Z.leb_spec 1 z); [lia | reflexivity].
    + destruct size as [[|z]|]; simpl in Hbad; try discriminate.
      * destruct page as [[|y]|]; try reflexivity.
        now destruct ((1 <=? y) && true).
      * assert (E : (1 <=? z) && (z <=? 100) = false).
        { apply orb_true_iff in Hbad. apply andb_false_iff.
          destruct Hbad as [H|H]; apply Z.ltb_lt in H; [left | right];
            apply Z.leb_gt; lia. }
        rewrite E. destruct page as [[|y]|]; try reflexivity.
        now destruct ((1 <=? y) && true).
  - intros Hok. apply orb_false_iff in Hok. destruct Hok as [Hp Hs].
    unfold route_records, Query, in_range.
    assert (Hpage : exists p, 1 <= p /\
              match page with
              | Some Malformed => None
              | Some (Int z) => if (1 <=? z) && true then Some z else None
              | None => Some 1
              end = Some p).
    { destruct page as [[|z]|]; simpl in Hp; try discriminate.
      - apply Z.ltb_ge in Hp. exists z. split; [lia|].
        destruct (Z.leb_spec 1 z); [reflexivity | lia].
      - exists 1. split; [lia | reflexivity]. }
    assert (Hsize : exists s, 1 <= s <= 100 /\
              match size with
              | Some Malformed => None
              | Some (Int z) => if (1 <=? z) && (z <=? 100) then Some z else None
              | None => Some 10
              end = Some s).
    { destruct size as [[|z]|]; simpl in Hs; try discriminate.
      - apply orb_false_iff in Hs. destruct Hs as [H1 H2].
        apply Z.ltb_ge in H1, H2. exists z. split; [lia|].
        destruct (Z.leb_spec 1 z); [|lia].
        destruct (Z.leb_spec z 100); [reflexivity | lia].
      - exists 10. split; [lia | reflexivity]. }
    destruct Hpage as [p [Hp1 ->]]. destruct Hsize as [s [Hs1 ->]].
    exists p, s. repeat split; lia.
Qed.

Example boundary_rejects_size_101 :
  route_records Re.refuse_others scenario (Some (Int 1)) (Some (Int 101)) None None
  = Raises RequestValidationError.
Proof. reflexivity. Qed.

(** ** Whole table, empty filters, missing entries *)

(** C7. With no filter and page 1, a size of at least the number of records
    returns the whole table in file order. *)
Theorem first_page_holds_whole_table :
  forall (beyond : Re.engine) (df : DataFrame) (size : Z),
    1 <= size <= 100 ->
    len df <= size ->
    get_records beyond df 1 size None None =
      Returns {| Listing.page := 1;
                 Listing.size := len df;
                 Listing.total_filtered := len df;
                 Listing.data := to_dict_records df |}.
Proof.
  intros beyond df size Hsize Hall.
  unfold get_records, filter_column, bind, iloc, to_dict_records.
  cbn [rows columns].
  replace ((1 - 1) * size) with 0 by lia.
  rewrite slice_window by lia.
  cbn [Z.to_nat skipn].
  rewrite firstn_all2 by (unfold len, Py.len in Hall; lia).
  unfold len, Py.len. now rewrite length_map.
Qed.

Lemma first_page_holds_whole_table_witness :
  get_records Re.refuse_others scenario 1 3 None None =
    Returns {| Listing.page := 1;
               Listing.size := 3;
               Listing.total_filtered := 3;
               Listing.data := to_dict_records scenario |}.
Proof.
  refine (first_page_holds_whole_table Re.refuse_others scenario 3 _ _);
    [lia | unfold len, Py.len; simpl; lia].
Defined.

(** C9. A filter supplied as the empty string gives the result of the filter
    left unset, for either column and whatever the other parameters are. *)
Theorem empty_filter_same_as_unset :
  forall (beyond : Re.engine) (df : DataFrame) (page size : Z)
         (insname creddesc : option string),
    get_records beyond df page size (Some EmptyString) creddesc
    = get_records beyond df page size None creddesc
    /\ get_records beyond df page size insname (Some EmptyString)
       = get_records beyond df page size insname None.
Proof.
  intros beyond df page size insname creddesc. split; reflexivity.
Qed.

(** Whenever [get_records] returns, its data are records of rows that pass
    both filters. *)
Lemma get_records_returns (beyond : Re.engine) (df : DataFrame) (page size : Z)
    (insname creddesc : option string) (resp : Listing.t) :
  get_records beyond df page size insname creddesc = Returns resp ->
  forall rec, In rec (Listing.data resp) ->
    exists row,
      In row (rows df) /\ rec = to_record (columns df) row
      /\ passes beyond df "INSNAME" insname row = true
      /\ passes beyond df "CREDDESC" creddesc row = true.
Proof.
  unfold get_records. cbv zeta.
  destruct (filter_column beyond df "INSNAME" insname) as [f1|] eqn:H1;
    try discriminate.
  cbn [bind].
  destruct (filter_column beyond f1 "CREDDESC" creddesc) as [f2|] eqn:H2;
    try discriminate.
  cbn [bind]. intros H. injection H as <-. cbn [Listing.data].
  apply filter_column_returns in H1, H2. subst f1 f2.
  intros rec Hrec. unfold to_dict_records, iloc in Hrec. cbn [rows columns] in Hrec.
  apply in_map_iff in Hrec. destruct Hrec as [row [<- Hrow]].
  apply slice_incl in Hrow.
  apply filter_In in Hrow. destruct Hrow as [Hrow Hcred].
  apply filter_In in Hrow. destruct Hrow as [Hrow Hname].
  exists row. repeat split; assumption.
Qed.

(** A row that a supplied, non-empty filter passes has a string in the
    filtered column; in its record that entry is not missing. *)
Lemma passes_not_missing (beyond : Re.engine) (df : DataFrame)
    (column value : string) (row : list cell) :
  value <> EmptyString ->
  passes beyond df column (Some value) row = true ->
  is_missing column (to_record (columns df) row) = false.
Proof.
  intros Hne Hpass. unfold passes in Hpass.
  replace (Py.truthy (Some value)) with true in Hpass by (now destruct value).
  unfold is_missing. rewrite lookup_to_record.
  unfold entry in Hpass.
  destruct (find_column column (columns df)) as [[i t]|]; [|discriminate].
  cbn [option_map fst snd]. now destruct (read t (cell_at i row)).
Qed.

(** C10. With a non-empty INSNAME (or CREDDESC) filter, whatever its value,
    no record of the result has a missing INSNAME (or CREDDESC): a record
    whose entry is missing is never kept. *)
Theorem missing_entry_is_filtered_out :
  forall (beyond : Re.engine) (df : DataFrame) (page size : Z) (value : string)
         (other : option string) (resp : Listing.t) (rec : record),
    value <> EmptyString ->
    In rec (Listing.data resp) ->
    (get_records beyond df page size (Some value) other = Returns resp ->
     is_missing "INSNAME" rec = false)
    /\ (get_records beyond df page size other (Some value) = Returns resp ->
        is_missing "CREDDESC" rec = false).
Proof.
  intros beyond df page size value other resp rec Hne Hrec. split; intros Hrun.
  - destruct (get_records_returns _ _ _ _ _ _ _ Hrun rec Hrec)
      as [row [_ [-> [Hpass _]]]].
    now apply passes_not_missing with (beyond := beyond) (value := value).
  - destruct (get_records_returns _ _ _ _ _ _ _ Hrun rec Hrec)
      as [row [_ [-> [_ Hpass]]]].
    now apply passes_not_missing with (beyond := beyond) (value := value).
Qed.

Lemma missing_entry_is_filtered_out_witness :
  get_records Re.refuse_others with_gaps 1 10 (Some "a") None =
    Returns {| Listing.page := 1;
               Listing.size := 2;
               Listing.total_filtered := 2;
               Listing.data :=
                 [ [("INSID", CInt 1); ("INSNAME", CStr "Alpha U");
                    ("CREDDESC", CStr "Diploma"); ("CREDLEV", CInt 3)];
                   [("INSID", CInt 3); ("INSNAME", CStr "Gamma Tech");
                    ("CREDDESC", CNaN); ("CREDLEV", CInt 3)] ] |}
  /\ is_missing "INSNAME"
       [("INSID", CInt 3); ("INSNAME", CStr "Gamma Tech");
        ("CREDDESC", CNaN); ("CREDLEV", CInt 3)] = false.
Proof.
  split; [reflexivity|].
  refine (proj1 (missing_entry_is_filtered_out
                   Re.refuse_others with_gaps 1 10 "a" None _ _ _ _) eq_refl);
    [discriminate | right; left; reflexivity].
Defined.

(** ** The lookups by INSID, taken together *)

Section Partition.

Variable A : Type.
Variable key : A -> cell.

(** Putting one more element in the group of [z] adds it once to the union of
    the groups, when [z] is listed once. *)
Lemma concat_insert_once (z : Z) (x : A) (f : Z -> list A) (ids : list Z) :
  NoDup ids -> In z ids ->
  Permutation
    (List.concat (map (fun id => if Z.eqb z id then x :: f id else f id) ids))
    (x :: List.concat (map f ids)).
Proof.
  induction ids as [|a ids IH]; intros Hnd Hin; [contradiction|].
  inversion Hnd as [|? ? Hnotin Hnd']; subst. cbn [map List.concat].
  destruct (Z.eqb_spec z a) as [->|Hza].
  - rewrite (map_ext_in _ f); [reflexivity|].
    intros id Hid. destruct (Z.eqb_spec a id) as [->|]; [contradiction | reflexivity].
  - destruct Hin as [->|Hin]; [contradiction|].
    rewrite (IH Hnd' Hin). symmetry. apply Permutation_middle.
Qed.

Lemma concat_nils (ids : list Z) : List.concat (map (fun _ => @nil A) ids) = [].
Proof. induction ids; simpl; auto. Qed.

(** Over a duplicate-free list of the integers that occur as keys, the groups
    are a rearrangement of the elements with an integer key. *)
Lemma groups_partition (ids : list Z) (l : list A) :
  NoDup ids ->
  (forall x z, In x l -> key x = CInt z -> In z ids) ->
  Permutation (List.concat (map (fun id => keyed key id l) ids)) (int_keyed key l).
Proof.
  intros Hnd. induction l as [|x l IH]; intros Hids.
  - unfold keyed, int_keyed. simpl. now rewrite concat_nils.
  - assert (IH' : Permutation (List.concat (map (fun id => keyed key id l) ids)) (int_keyed key l)).
    { apply IH. intros y z Hy. apply Hids. now right. }
    unfold keyed, int_keyed in *. cbn [filter].
    destruct (key x) as [z| |] eqn:Hkey; cbn [cell_eqb].
    + rewrite <- IH'.
      apply (concat_insert_once z x
               (fun id => filter (fun y => cell_eqb (key y) (CInt id)) l));
        [assumption|].
      apply (Hids x z); [now left | assumption].
    + exact IH'.
    + exact IH'.
Qed.


End Partition.



(** * Further properties of the handlers *)

(** ** How a listing is computed *)

(** [get_records] is the two filter steps followed by the slice. *)
Lemma get_records_run (beyond : Re.engine) (df : DataFrame) (page size : Z)
    (insname creddesc : option string) :
  get_records beyond df page size insname creddesc =
  match (filtered_df <- filter_column beyond df "INSNAME" insname ;;
         filter_column beyond filtered_df "CREDDESC" creddesc) with
  | Returns out =>
      let window := Py.slice (rows out) ((page - 1) * size) ((page - 1) * size + size) in
      Returns {| Listing.page := page;
                 Listing.size := Py.len window;
                 Listing.total_filtered := Py.len (rows out);
                 Listing.data := map (to_record (columns out)) window |}
  | Raises e => Raises e
  end.
Proof.
  unfold get_records. cbv zeta.
  destruct (filter_column beyond df "INSNAME" insname) as [f1|]; cbn [bind];
    [|reflexivity].
  destruct (filter_column beyond f1 "CREDDESC" creddesc) as [f2|]; cbn [bind];
    [|reflexivity].
  unfold to_dict_records, iloc, len, Py.len. cbn [rows columns].
  now rewrite length_map.
Qed.

(** Whether the filter steps return does not involve the page or the size;
    when they do, the listing is the slice of the matching rows. *)
Lemma get_records_slice (beyond : Re.engine) (df : DataFrame) (page size : Z)
    (insname creddesc : option string) (resp : Listing.t) :
  get_records beyond df page size insname creddesc = Returns resp ->
  forall page' size',
    get_records beyond df page' size' insname creddesc =
    let window := Py.slice (matching_rows beyond df insname creddesc)
                    ((page' - 1) * size') ((page' - 1) * size' + size') in
    Returns {| Listing.page := page';
               Listing.size := Py.len window;
               Listing.total_filtered := Py.len (matching_rows beyond df insname creddesc);
               Listing.data := map (to_record (columns df)) window |}.
Proof.
  intros Hresp page' size'. rewrite get_records_run in Hresp |- *.
  destruct (filtered_df <- filter_column beyond df "INSNAME" insname ;;
            filter_column beyond filtered_df "CREDDESC" creddesc) as [out|] eqn:Hout;
    [|discriminate].
  apply filters_return in Hout. subst out. reflexivity.
Qed.

Lemma slice_length_le {A : Type} (l : list A) (start stop : Z) :
  Py.len (Py.slice l start stop) <= Py.len l.
Proof.
  unfold Py.slice, Py.len. rewrite length_firstn, length_skipn. lia.
Qed.

Lemma slice_page_zero {A : Type} (l : list A) (size : Z) :
  Py.slice l ((0 - 1) * size) ((0 - 1) * size + size) = [].
Proof.
  unfold Py.slice, Py.slice_bound.
  replace ((0 - 1) * size + size) with 0 by lia.
  replace (0 <? 0) with false by reflexivity.
  replace (Z.min 0 (Py.len l)) with 0 by (unfold Py.len; lia).
  destruct (Z.ltb_spec ((0 - 1) * size) 0).
  - replace (Z.to_nat (0 - Z.max 0 (Py.len l + (0 - 1) * size))) with O by lia.
    reflexivity.
  - replace (Z.to_nat (0 - Z.min ((0 - 1) * size) (Py.len l))) with O
      by (unfold Py.len; lia).
    reflexivity.
Qed.

(** X1. Page and size never decide whether a listing succeeds, nor its
    [total_filtered]: if [get_records] returns for one page and size, it
    returns for every page and size, in range or not, with the page echoed,
    the same [total_filtered], and a [size] that is the number of records
    returned and is at most [total_filtered]. *)
Theorem listing_total_ignores_page_and_size :
  forall (beyond : Re.engine) (df : DataFrame) (page size page' size' : Z)
         (insname creddesc : option string) (resp : Listing.t),
    get_records beyond df page size insname creddesc = Returns resp ->
    exists resp',
      get_records beyond df page' size' insname creddesc = Returns resp'
      /\ Listing.page resp' = page'
      /\ Listing.total_filtered resp' = Listing.total_filtered resp
      /\ Listing.size resp' = Py.len (Listing.data resp')
      /\ 0 <= Listing.size resp' <= Listing.total_filtered resp'.
Proof.
  intros beyond df page size page' size' insname creddesc resp Hresp.
  pose proof (get_records_slice _ _ _ _ _ _ _ Hresp page size) as Hsame.
  pose proof (get_records_slice _ _ _ _ _ _ _ Hresp page' size') as Hother.
  rewrite Hresp in Hsame. cbv zeta in Hsame, Hother. injection Hsame as ->.
  eexists. split; [exact Hother|]. cbn [Listing.page Listing.total_filtered
                                        Listing.size Listing.data].
  repeat split.
  - unfold Py.len. now rewrite length_map.
  - unfold Py.len. lia.
  - apply slice_length_le.
Qed.

Lemma listing_total_ignores_page_and_size_witness :
  exists resp',
    get_records Re.refuse_others scenario (-3) 250 (Some "alpha") None = Returns resp'
    /\ Listing.page resp' = -3
    /\ Listing.total_filtered resp' = 2
    /\ Listing.size resp' = Py.len (Listing.data resp')
    /\ 0 <= Listing.size resp' <= Listing.total_filtered resp'.
Proof.
  exact (listing_total_ignores_page_and_size
           Re.refuse_others scenario 1 10 (-3) 250 (Some "alpha") None _ eq_refl).
Defined.

(** X2. Page 0, which only a direct call can pass, gives no record whatever
    the size, while [total_filtered] is still reported. *)
Theorem page_zero_is_empty :
  forall (beyond : Re.engine) (df : DataFrame) (page size size' : Z)
         (insname creddesc : option string) (resp : Listing.t),
    get_records beyond df page size insname creddesc = Returns resp ->
    get_records beyond df 0 size' insname creddesc =
      Returns {| Listing.page := 0;
                 Listing.size := 0;
                 Listing.total_filtered := Listing.total_filtered resp;
                 Listing.data := [] |}.
Proof.
  intros beyond df page size size' insname creddesc resp Hresp.
  pose proof (get_records_slice _ _ _ _ _ _ _ Hresp page size) as Hsame.
  rewrite Hresp in Hsame. cbv zeta in Hsame. injection Hsame as ->.
  rewrite (get_records_slice _ _ _ _ _ _ _ Hresp 0 size'). cbv zeta.
  now rewrite slice_page_zero.
Qed.

Lemma page_zero_is_empty_witness :
  get_records Re.refuse_others scenario 0 10 None None =
    Returns {| Listing.page := 0;
               Listing.size := 0;
               Listing.total_filtered := 3;
               Listing.data := [] |}.
Proof.
  exact (page_zero_is_empty Re.refuse_others scenario 1 10 10 None None _ eq_refl).
Defined.

(** ** Walking the pages *)

Lemma firstn_plus {A : Type} (a b : nat) (l : list A) :
  firstn (a + b) l = firstn a l ++ firstn b (skipn a l).
Proof.
  revert l. induction a as [|a IH]; intros l; [reflexivity|].
  destruct l as [|x l]; simpl.
  - now rewrite firstn_nil.
  - now rewrite IH.
Qed.

(** Consecutive windows of the same length, put end to end, are a prefix. *)
Lemma chunks_concat {A : Type} (s k : nat) (l : list A) :
  List.concat (map (fun p => firstn s (skipn ((p - 1) * s) l)) (seq 1 k))
  = firstn (k * s) l.
Proof.
  induction k as [|k IH]; [reflexivity|].
  rewrite seq_S, map_app, concat_app, IH. cbn [map List.concat].
  rewrite app_nil_r. replace (1 + k - 1)%nat with k by lia.
  replace (S k * s)%nat with (k * s + s)%nat by lia.
  now rewrite firstn_plus.
Qed.

(** The window of a page in range, in natural numbers. *)
Lemma page_window {A : Type} (l : list A) (p : nat) (size : Z) :
  (1 <= p)%nat -> 1 <= size ->
  Py.slice l ((Z.of_nat p - 1) * size) ((Z.of_nat p - 1) * size + size)
  = firstn (Z.to_nat size) (skipn ((p - 1) * Z.to_nat size) l).
Proof.
  intros Hp Hsize. rewrite slice_window by nia.
  replace (Z.to_nat ((Z.of_nat p - 1) * size)) with ((p - 1) * Z.to_nat size)%nat
    by nia.
  reflexivity.
Qed.

(** X3. Once a page in range comes back with fewer records than the size asked
    for, every later page of that size is empty: a short page is the last
    one. *)
Theorem short_page_is_last :
  forall (beyond : Re.engine) (df : DataFrame) (page page' size : Z)
         (insname creddesc : option string) (resp : Listing.t),
    1 <= page ->
    1 <= size ->
    get_records beyond df page size insname creddesc = Returns resp ->
    Listing.size resp < size ->
    page < page' ->
    get_records beyond df page' size insname creddesc =
      Returns {| Listing.page := page';
                 Listing.size := 0;
                 Listing.total_filtered := Listing.total_filtered resp;
                 Listing.data := [] |}.
Proof.
  intros beyond df page page' size insname creddesc resp Hpage Hsize Hresp Hshort Hlater.
  pose proof (get_records_slice _ _ _ _ _ _ _ Hresp page size) as Hsame.
  rewrite Hresp in Hsame. cbv zeta in Hsame. injection Hsame as ->.
  rewrite (get_records_slice _ _ _ _ _ _ _ Hresp page' size). cbv zeta.
  cbn [Listing.size Listing.total_filtered] in *.
  set (m := matching_rows beyond df insname creddesc) in *.
  rewrite slice_window in Hshort by nia.
  rewrite slice_window by nia.
  unfold Py.len in Hshort. rewrite length_firstn, length_skipn in Hshort.
  assert (Hoff : 0 <= (page - 1) * size) by nia.
  assert (Hnext : (page - 1) * size + size <= (page' - 1) * size) by nia.
  rewrite (skipn_all2 m) by lia.
  now rewrite firstn_nil.
Qed.

Lemma short_page_is_last_witness :
  get_records Re.refuse_others scenario 5 2 None None =
    Returns {| Listing.page := 5;
               Listing.size := 0;
               Listing.total_filtered := 3;
               Listing.data := [] |}.
Proof.
  refine (short_page_is_last Re.refuse_others scenario 2 5 2 None None _ _ _ eq_refl _ _);
    [lia | lia | reflexivity | lia].
Defined.

(** X4. Pages 1 to k of one size, put end to end, are the first k * size
    matching records in file order, with no gap and no repeat; they are all
    the matching records as soon as k * size reaches [total_filtered]. *)
Theorem pages_concatenate :
  forall (beyond : Re.engine) (df : DataFrame) (page size : Z)
         (insname creddesc : option string) (resp : Listing.t) (k : nat),
    1 <= size ->
    get_records beyond df page size insname creddesc = Returns resp ->
    let walked :=
      List.concat
        (map (fun p => listing_data
                         (get_records beyond df (Z.of_nat p) size insname creddesc))
             (seq 1 k)) in
    walked = map (to_record (columns df))
               (firstn (k * Z.to_nat size) (matching_rows beyond df insname creddesc))
    /\ (Listing.total_filtered resp <= Z.of_nat k * size ->
        walked = map (to_record (columns df))
                   (matching_rows beyond df insname creddesc)).
Proof.
  intros beyond df page size insname creddesc resp k Hsize Hresp walked.
  set (m := matching_rows beyond df insname creddesc).
  assert (Hwalk : walked = map (to_record (columns df)) (firstn (k * Z.to_nat size) m)).
  { unfold walked.
    rewrite (map_ext_in _ (fun p => map (to_record (columns df))
                                      (firstn (Z.to_nat size)
                                         (skipn ((p - 1) * Z.to_nat size) m)))).
    - rewrite <- (map_map (fun p => firstn (Z.to_nat size)
                                      (skipn ((p - 1) * Z.to_nat size) m))
                          (map (to_record (columns df)))).
      rewrite <- concat_map. now rewrite chunks_concat.
    - intros p Hp. apply in_seq in Hp.
      rewrite (get_records_slice _ _ _ _ _ _ _ Hresp (Z.of_nat p) size).
      cbv zeta. cbn [listing_data Listing.data]. fold m.
      rewrite page_window by lia. reflexivity. }
  split; [exact Hwalk|].
  intros Hall. rewrite Hwalk. f_equal. apply firstn_all2.
  pose proof (get_records_slice _ _ _ _ _ _ _ Hresp page size) as Hsame.
  rewrite Hresp in Hsame. cbv zeta in Hsame. injection Hsame as ->.
  cbn [Listing.total_filtered] in Hall. fold m in Hall. unfold Py.len in Hall. nia.
Qed.

Lemma pages_concatenate_witness :
  List.concat
    (map (fun p => listing_data
                     (get_records Re.refuse_others scenario (Z.of_nat p) 2 None None))
         (seq 1 2))
  = to_dict_records scenario.
Proof.
  refine (proj2 (pages_concatenate Re.refuse_others scenario 1 2 None None _ 2 _ eq_refl) _);
    [lia | discriminate].
Defined.

(** ** Filters against one another *)

Lemma filter_length_mono {A : Type} (p q : A -> bool) (l : list A) :
  (forall x, p x = true -> q x = true) ->
  (List.length (filter p l) <= List.length (filter q l))%nat.
Proof.
  intros Hpq. induction l as [|x l IH]; simpl; [lia|].
  destruct (p x) eqn:Hp.
  - rewrite (Hpq x Hp). simpl. lia.
  - destruct (q x); simpl; lia.
Qed.

(** A listing that returns has passed its first filter step. *)
Lemma first_step_returns (beyond : Re.engine) (df : DataFrame) (page size : Z)
    (insname creddesc : option string) (resp : Listing.t) :
  get_records beyond df page size insname creddesc = Returns resp ->
  exists f1, filter_column beyond df "INSNAME" insname = Returns f1.
Proof.
  rewrite get_records_run.
  destruct (filter_column beyond df "INSNAME" insname) as [f1|]; [|discriminate].
  intros _. now exists f1.
Qed.

(** A listing that returns has the matching rows for its total. *)
Lemma total_is_matching (beyond : Re.engine) (df : DataFrame) (page size : Z)
    (insname creddesc : option string) (resp : Listing.t) :
  get_records beyond df page size insname creddesc = Returns resp ->
  Listing.total_filtered resp = Py.len (matching_rows beyond df insname creddesc).
Proof.
  intros Hresp.
  pose proof (get_records_slice _ _ _ _ _ _ _ Hresp page size) as Hsame.
  rewrite Hresp in Hsame. cbv zeta in Hsame. now injection Hsame as ->.
Qed.

(** X5. Adding a filter never adds records.  When a listing with both filters
    returns, the listing with the INSNAME filter alone and the unfiltered
    listing return as well, and [total_filtered] can only grow as filters are
    dropped, up to the number of rows of the table; the same holds against the
    CREDDESC filter alone whenever that listing returns. *)
Theorem adding_filter_never_adds_records :
  forall (beyond : Re.engine) (df : DataFrame) (page size : Z)
         (insname creddesc : option string) (both : Listing.t),
    get_records beyond df page size insname creddesc = Returns both ->
    exists by_name unfiltered,
      get_records beyond df page size insname None = Returns by_name
      /\ get_records beyond df page size None None = Returns unfiltered
      /\ Listing.total_filtered both <= Listing.total_filtered by_name
      /\ Listing.total_filtered by_name <= Listing.total_filtered unfiltered
      /\ Listing.total_filtered unfiltered = len df
      /\ (forall by_cred,
            get_records beyond df page size None creddesc = Returns by_cred ->
            Listing.total_filtered both <= Listing.total_filtered by_cred).
Proof.
  intros beyond df page size insname creddesc both Hboth.
  destruct (first_step_returns _ _ _ _ _ _ _ Hboth) as [f1 Hf1].
  assert (Hname : exists r, get_records beyond df page size insname None = Returns r).
  { rewrite get_records_run, Hf1. cbn [bind filter_column]. eexists. reflexivity. }
  assert (Hall : exists r, get_records beyond df page size None None = Returns r).
  { rewrite get_records_run. cbn [bind filter_column]. eexists. reflexivity. }
  destruct Hname as [by_name Hname]. destruct Hall as [unfiltered Hall].
  exists by_name, unfiltered.
  rewrite (total_is_matching _ _ _ _ _ _ _ Hboth).
  rewrite (total_is_matching _ _ _ _ _ _ _ Hname).
  rewrite (total_is_matching _ _ _ _ _ _ _ Hall).
  unfold matching_rows, len, Py.len.
  repeat split; try assumption.
  - apply inj_le, filter_length_mono. intros row H.
    apply andb_true_iff in H. destruct H as [H _]. now rewrite H.
  - apply inj_le, filter_length_mono. reflexivity.
  - cbn [passes andb]. now rewrite filter_all.
  - intros by_cred Hcred. rewrite (total_is_matching _ _ _ _ _ _ _ Hcred).
    unfold matching_rows, Py.len.
    apply inj_le, filter_length_mono. intros row H.
    apply andb_true_iff in H. destruct H as [_ H]. now rewrite H.
Qed.

Lemma adding_filter_never_adds_records_witness :
  exists by_name unfiltered,
    get_records Re.refuse_others scenario 1 10 (Some "alpha") None = Returns by_name
    /\ get_records Re.refuse_others scenario 1 10 None None = Returns unfiltered
    /\ Listing.total_filtered
         {| Listing.page := 1; Listing.size := 1; Listing.total_filtered := 1;
            Listing.data :=
              [ [("INSID", CInt 1); ("INSNAME", CStr "Alpha U");
                 ("CREDDESC", CStr "Bachelor of Science"); ("CREDLEV", CInt 3)] ] |}
       <= Listing.total_filtered by_name
    /\ Listing.total_filtered by_name <= Listing.total_filtered unfiltered
    /\ Listing.total_filtered unfiltered = len scenario.
Proof.
  destruct (adding_filter_never_adds_records
              Re.refuse_others scenario 1 10 (Some "alpha") (Some "science") _ eq_refl)
    as [by_name [unfiltered [H1 [H2 [H3 [H4 [H5 _]]]]]]].
  exists by_name, unfiltered. repeat split; assumption.
Defined.

(** ** The exceptions of a listing *)

Lemma filter_column_raises (beyond : Re.engine) (frame : DataFrame) (column : string)
    (value : option string) (e : exn) :
  filter_column beyond frame column value = Raises e ->
  Py.truthy value = true
  /\ (e = KeyError column /\ has_column frame column = false
      \/ e = AttributeError
      \/ exists pat, value = Some pat /\ Re.compile_search beyond pat = Raises e).
Proof.
  unfold filter_column, has_column, getitem. destruct value as [pat|]; [|discriminate].
  destruct (Py.truthy (Some pat)); [|discriminate].
  destruct (find_column column (columns frame)) as [[i t]|]; cbn [bind].
  - unfold str_contains.
    destruct (str_accessor _) as [vals|e'] eqn:Hacc; cbn [bind].
    + destruct (Re.compile_search beyond pat) as [found|e'] eqn:Hre; cbn [bind];
        [discriminate|].
      intros H. injection H as <-. split; [reflexivity|]. right. right.
      exists pat. now split.
    + intros H. injection H as <-. split; [reflexivity|]. right. left.
      unfold str_accessor in Hacc. cbn [s_dtype values] in Hacc.
      destruct t; try (now injection Hacc as <-).
      destruct (filter _ _); [discriminate|].
      destruct (existsb _ _); [discriminate | now injection Hacc as <-].
  - intros H. injection H as <-. auto.
Qed.

(** A pattern of the fragment that does not compile raises [re.error]. *)
Lemma compile_search_inside (beyond : Re.engine) (pat : string) (e : exn) :
  Re.compile pat <> Re.Outside ->
  Re.compile_search beyond pat = Raises e -> e = ReError.
Proof.
  unfold Re.compile_search. intros Hin.
  destruct (Re.compile pat); [discriminate | now intros [= <-] | contradiction].
Qed.

(** X6. What can go wrong in a listing.  With no filter supplied it returns,
    for every table, page and size.  With an INSNAME filter on a table that
    has no INSNAME column it raises [KeyError] for that column, whatever the
    other parameters.  Any exception it raises comes from a supplied filter
    and is a [KeyError] for one of the two filtered columns, an
    [AttributeError], or the exception that compiling a supplied filter value
    as a pattern raised; for filter values of the modelled fragment of
    patterns that one is [re.error], and the request is answered with a
    500. *)
Theorem listing_exceptions :
  forall (beyond : Re.engine) (df : DataFrame) (page size : Z)
         (insname creddesc : option string),
    (Py.truthy insname = false -> Py.truthy creddesc = false ->
     exists resp, get_records beyond df page size insname creddesc = Returns resp)
    /\ (Py.truthy insname = true -> has_column df "INSNAME" = false ->
        get_records beyond df page size insname creddesc = Raises (KeyError "INSNAME"))
    /\ (forall e,
          get_records beyond df page size insname creddesc = Raises e ->
          (Py.truthy insname = true \/ Py.truthy creddesc = true)
          /\ (e = KeyError "INSNAME" \/ e = KeyError "CREDDESC"
              \/ e = AttributeError
              \/ exists pat,
                   (insname = Some pat \/ creddesc = Some pat)
                   /\ Re.compile_search beyond pat = Raises e)
          /\ ((forall pat, insname = Some pat \/ creddesc = Some pat ->
                           Re.compile pat <> Re.Outside) ->
              (e = KeyError "INSNAME" \/ e = KeyError "CREDDESC"
               \/ e = AttributeError \/ e = ReError)
              /\ status_of e = 500)).
Proof.
  intros beyond df page size insname creddesc. split; [|split].
  - intros Hi Hc. rewrite get_records_run.
    assert (E1 : filter_column beyond df "INSNAME" insname = Returns df).
    { unfold filter_column. destruct insname; [now rewrite Hi | reflexivity]. }
    assert (E2 : filter_column beyond df "CREDDESC" creddesc = Returns df).
    { unfold filter_column. destruct creddesc; [now rewrite Hc | reflexivity]. }
    rewrite E1. cbn [bind]. rewrite E2. eexists. reflexivity.
  - intros Hi Hcol. rewrite get_records_run.
    assert (E : filter_column beyond df "INSNAME" insname = Raises (KeyError "INSNAME")).
    { unfold filter_column. destruct insname as [pat|]; [|discriminate].
      rewrite Hi. unfold getitem. unfold has_column in Hcol.
      destruct (find_column "INSNAME" (columns df)); [discriminate | reflexivity]. }
    now rewrite E.
  - intros e He. rewrite get_records_run in He.
    assert (Hfrom : (Py.truthy insname = true \/ Py.truthy creddesc = true)
                    /\ (e = KeyError "INSNAME" \/ e = KeyError "CREDDESC"
                        \/ e = AttributeError
                        \/ exists pat,
                             (insname = Some pat \/ creddesc = Some pat)
                             /\ Re.compile_search beyond pat = Raises e)).
    { destruct (filter_column beyond df "INSNAME" insname) as [f1|e1] eqn:H1;
        cbn [bind] in He.
      - destruct (filter_column beyond f1 "CREDDESC" creddesc) as [f2|e2] eqn:H2;
          [discriminate|].
        injection He as <-.
        destruct (filter_column_raises _ _ _ _ _ H2)
          as [Ht [[-> _]|[->|[pat [-> Hre]]]]]; (split; [now right|]); auto.
        right. right. right. exists pat. split; [now right | exact Hre].
      - injection He as <-.
        destruct (filter_column_raises _ _ _ _ _ H1)
          as [Ht [[-> _]|[->|[pat [-> Hre]]]]]; (split; [now left|]); auto.
        right. right. right. exists pat. split; [now left | exact Hre]. }
    destruct Hfrom as [Hsupplied Hkind].
    split; [exact Hsupplied|]. split; [exact Hkind|].
    intros Hinside.
    assert (Hfour : e = KeyError "INSNAME" \/ e = KeyError "CREDDESC"
                    \/ e = AttributeError \/ e = ReError).
    { destruct Hkind as [->|[->|[->|[pat [Hpat Hre]]]]]; auto.
      right. right. right.
      exact (compile_search_inside beyond pat e (Hinside pat Hpat) Hre). }
    split; [exact Hfour|].
    destruct Hfour as [->|[->|[->| ->]]]; reflexivity.
Qed.

(** A repeat count that is too large: compiling the filter value raises
    [OverflowError], and so does the listing. *)
Example listing_raises_what_compile_raises :
  Re.compile "a{99999999999}" = Re.Outside
  /\ get_records (fun _ => Raises (Exception "OverflowError")) scenario 1 10
       (Some "a{99999999999}") None
     = Raises (Exception "OverflowError").
Proof. split; reflexivity. Qed.

(** ** Plain filter values *)

Lemma truthy_str_upper (value : string) :
  Py.truthy (Some (Py.str_upper value)) = Py.truthy (Some value).
Proof. now destruct value. Qed.

Lemma truthy_str_lower (value : string) :
  Py.truthy (Some (Py.str_lower value)) = Py.truthy (Some value).
Proof. now destruct value. Qed.

(** Two plain values that agree once lower-cased filter alike. *)
Lemma filter_column_same_lower (beyond : Re.engine) (frame : DataFrame)
    (column v w : string) :
  plain v = true -> plain w = true ->
  Py.str_lower v = Py.str_lower w ->
  filter_column beyond frame column (Some v) = filter_column beyond frame column (Some w).
Proof.
  intros Hv Hw Hlow. unfold filter_column.
  assert (Ht : Py.truthy (Some v) = Py.truthy (Some w)).
  { destruct v, w; try reflexivity; discriminate. }
  rewrite Ht. destruct (Py.truthy (Some w)); [|reflexivity].
  destruct (getitem frame column) as [s|]; [|reflexivity]. cbn [bind].
  unfold str_contains. destruct (str_accessor s) as [vals|]; [|reflexivity].
  cbn [bind]. unfold Re.compile_search.
  rewrite (compile_plain _ Hv), (compile_plain _ Hw). cbn [bind].
  rewrite (map_ext _ (fun c => match c with
                               | CStr x => Re.search (literal w) x
                               | CInt _ | CNaN => false
                               end)); [reflexivity|].
  intros [z|x|]; try reflexivity.
  rewrite !search_literal. unfold contains_ignoring_case. now rewrite Hlow.
Qed.

(** X7. For a plain filter value (ASCII, no pattern character), the value,
    its upper-cased and its lower-cased variant give the same outcome of
    [get_records], data and exceptions alike, in either filter position. *)
Theorem plain_value_case_variants_same_listing :
  forall (beyond : Re.engine) (df : DataFrame) (page size : Z) (value : string)
         (other : option string),
    plain value = true ->
    get_records beyond df page size (Some (Py.str_upper value)) other
    = get_records beyond df page size (Some value) other
    /\ get_records beyond df page size (Some (Py.str_lower value)) other
       = get_records beyond df page size (Some value) other
    /\ get_records beyond df page size other (Some (Py.str_upper value))
       = get_records beyond df page size other (Some value)
    /\ get_records beyond df page size other (Some (Py.str_lower value))
       = get_records beyond df page size other (Some value).
Proof.
  intros beyond df page size value other Hplain.
  assert (Hup : forall frame column,
             filter_column beyond frame column (Some (Py.str_upper value))
             = filter_column beyond frame column (Some value)).
  { intros. apply filter_column_same_lower;
      [now rewrite plain_str_upper | assumption | apply str_lower_upper]. }
  assert (Hlow : forall frame column,
             filter_column beyond frame column (Some (Py.str_lower value))
             = filter_column beyond frame column (Some value)).
  { intros. apply filter_column_same_lower;
      [now rewrite plain_str_lower | assumption | apply str_lower_lower]. }
  rewrite !get_records_run. rewrite !Hup, !Hlow.
  repeat split; destruct (filter_column beyond df "INSNAME" other) as [f1|];
    cbn [bind]; try reflexivity; now rewrite ?Hup, ?Hlow.
Qed.

Lemma plain_value_case_variants_same_listing_witness :
  get_records Re.refuse_others scenario 1 10 (Some (Py.str_upper "Alpha")) None
  = get_records Re.refuse_others scenario 1 10 (Some "Alpha") None.
Proof.
  refine (proj1 (plain_value_case_variants_same_listing
                   Re.refuse_others scenario 1 10 "Alpha" None _)).
  reflexivity.
Defined.

(** A plain, non-empty filter value is usable on every column of text. *)
Lemma plain_usable (beyond : Re.engine) (df : DataFrame) (column value : string) :
  plain value = true -> text_column df column = true ->
  usable beyond df column (Some value) = true.
Proof.
  intros Hplain Htext. unfold usable, Re.compile_search.
  rewrite Htext, (compile_plain _ Hplain). now destruct (Py.truthy (Some value)).
Qed.

(** X8. With a plain, non-empty INSNAME filter on a table whose INSNAME column
    holds text, a page in range lists the rows whose name contains the value,
    case ignored: [total_filtered] is their number and the records are their
    window. *)
Theorem plain_filter_lists_containing :
  forall (beyond : Re.engine) (df : DataFrame) (page size : Z) (value : string),
    1 <= page ->
    1 <= size ->
    plain value = true ->
    value <> EmptyString ->
    text_column df "INSNAME" = true ->
    let found := containing df "INSNAME" value in
    let window := firstn (Z.to_nat size) (skipn (Z.to_nat ((page - 1) * size)) found) in
    get_records beyond df page size (Some value) None =
      Returns {| Listing.page := page;
                 Listing.size := Py.len window;
                 Listing.total_filtered := Py.len found;
                 Listing.data := map (to_record (columns df)) window |}.
Proof.
  intros beyond df page size value Hpage Hsize Hplain Hne Htext found window.
  rewrite get_records_run.
  rewrite (filters_usable beyond df (Some value) None
             (plain_usable _ _ _ _ Hplain Htext) eq_refl).
  cbv zeta. cbn [rows columns].
  assert (Hfound : filter (fun row => passes beyond df "INSNAME" (Some value) row
                                      && passes beyond df "CREDDESC" None row) (rows df)
                   = found).
  { unfold found, containing. apply filter_ext. intros row.
    rewrite (plain_filter_is_substring _ _ _ _ _ Hplain Hne).
    cbn [passes]. now rewrite andb_true_r. }
  rewrite Hfound. rewrite slice_window by nia. reflexivity.
Qed.

Lemma plain_filter_lists_containing_witness :
  get_records Re.refuse_others scenario 1 1 (Some "COLLEGE") None =
    Returns {| Listing.page := 1;
               Listing.size := 1;
               Listing.total_filtered := 1;
               Listing.data :=
                 [ [("INSID", CInt 1); ("INSNAME", CStr "Alpha College");
                    ("CREDDESC", CStr "Master of Arts"); ("CREDLEV", CInt 5)] ] |}.
Proof.
  refine (plain_filter_lists_containing Re.refuse_others scenario 1 1 "COLLEGE" _ _ _ _ _);
    [lia | lia | reflexivity | discriminate | reflexivity].
Defined.

(** ** The statistics: columns needed, bounds *)

Lemma getitem_missing (df : DataFrame) (column : string) :
  has_column df column = false -> getitem df column = Raises (KeyError column).
Proof.
  unfold has_column, getitem.
  now destruct (find_column column (columns df)) as [[i t]|].
Qed.

(** X9. [get_stats] returns exactly when the table has the columns INSNAME,
    CREDDESC and CREDLEV; otherwise it raises [KeyError] for the first of the
    three, in that order, that the table lacks. *)
Theorem get_stats_needs_three_columns :
  forall df : DataFrame,
    ((exists stats, get_stats df = Returns stats) <->
     has_column df "INSNAME" && has_column df "CREDDESC" && has_column df "CREDLEV"
     = true)
    /\ (has_column df "INSNAME" = false ->
        get_stats df = Raises (KeyError "INSNAME"))
    /\ (has_column df "INSNAME" = true -> has_column df "CREDDESC" = false ->
        get_stats df = Raises (KeyError "CREDDESC"))
    /\ (has_column df "INSNAME" = true -> has_column df "CREDDESC" = true ->
        has_column df "CREDLEV" = false ->
        get_stats df = Raises (KeyError "CREDLEV")).
Proof.
  intros df. unfold get_stats.
  destruct (has_column df "INSNAME") eqn:Hn.
  2:{ rewrite (getitem_missing _ _ Hn). cbn [bind andb].
      repeat split; try discriminate. intros [stats H]. discriminate. }
  destruct (getitem_column _ _ Hn) as [t1 ->]. cbn [bind].
  destruct (has_column df "CREDDESC") eqn:Hc.
  2:{ rewrite (getitem_missing _ _ Hc). cbn [bind andb].
      repeat split; try discriminate. intros [stats H]. discriminate. }
  destruct (getitem_column _ _ Hc) as [t2 ->]. cbn [bind].
  destruct (has_column df "CREDLEV") eqn:Hl.
  2:{ rewrite (getitem_missing _ _ Hl). cbn [bind andb].
      repeat split; try discriminate. intros [stats H]. discriminate. }
  destruct (getitem_column _ _ Hl) as [t3 ->]. cbn [bind andb].
  repeat split; try discriminate. intros _. eexists. reflexivity.
Qed.

Lemma distinct_length (l : list cell) :
  (List.length (distinct l) <= List.length l)%nat.
Proof.
  induction l as [|c l IH]; simpl; [lia|].
  pose proof (filter_length_le (fun d => negb (cell_eqb d c)) (distinct l)). lia.
Qed.

(** X10. Whenever [get_stats] returns, neither count is negative or exceeds
    the number of rows of the table, and there are at most as many credential
    levels as rows; on a table with no row both counts are 0 and no level is
    listed. *)
Theorem stats_bounded_by_rows :
  forall (df : DataFrame) (stats : Stats.t),
    get_stats df = Returns stats ->
    0 <= Stats.unique_institutions stats <= len df
    /\ 0 <= Stats.unique_credentials stats <= len df
    /\ Py.len (Stats.credential_levels stats) <= len df
    /\ (len df = 0 ->
        Stats.unique_institutions stats = 0
        /\ Stats.unique_credentials stats = 0
        /\ Stats.credential_levels stats = []).
Proof.
  intros df stats Hrun. unfold get_stats in Hrun.
  destruct (getitem df "INSNAME") as [names|] eqn:Hn; [|discriminate].
  destruct (getitem df "CREDDESC") as [creds|] eqn:Hc; [|discriminate].
  destruct (getitem df "CREDLEV") as [levels|] eqn:Hl; [|discriminate].
  cbn [bind] in Hrun. injection Hrun as <-.
  cbn [Stats.unique_institutions Stats.unique_credentials Stats.credential_levels].
  assert (Hvals : forall column s, getitem df column = Returns s ->
                    List.length (values s) = List.length (rows df)).
  { intros column s. unfold getitem.
    destruct (find_column column (columns df)) as [[i t]|]; [|discriminate].
    intros H. injection H as <-. cbn [values]. apply length_map. }
  apply Hvals in Hn, Hc, Hl.
  rewrite !nunique_distinct, unique_distinct. unfold len, Py.len, present.
  pose proof (distinct_length (filter (fun c => negb (is_na c)) (values names))).
  pose proof (distinct_length (filter (fun c => negb (is_na c)) (values creds))).
  pose proof (distinct_length (values levels)).
  pose proof (filter_length_le (fun c => negb (is_na c)) (values names)).
  pose proof (filter_length_le (fun c => negb (is_na c)) (values creds)).
  repeat split; try lia.
  destruct (distinct (values levels)) as [|c rest]; [reflexivity|].
  simpl in *. lia.
Qed.

Lemma stats_bounded_by_rows_witness :
  0 <= 2 <= len with_gaps /\ 0 <= 1 <= len with_gaps
  /\ Py.len [CInt 3; CNaN] <= len with_gaps.
Proof.
  destruct (stats_bounded_by_rows with_gaps _ eq_refl) as [H1 [H2 [H3 _]]].
  exact (conj H1 (conj H2 H3)).
Defined.

(** ** Lookups by INSID: what comes back *)

(** A record has the column labels of its frame for keys, in order. *)
Lemma keys_to_record (cols : list (string * dtype)) :
  forall row : list cell, keys (to_record cols row) = map fst cols.
Proof.
  unfold keys. induction cols as [|[name t] cols IH]; intros row; simpl;
    [reflexivity|]. now rewrite IH.
Qed.

(** What a lookup returns: the id asked for, with the records of some rows,
    at least one. *)
Lemma by_insid_returns (far : far_compare) (df : DataFrame) (id : Z) (r : ById.t) :
  get_records_by_insid far df id = Returns r ->
  exists found,
    found <> []
    /\ r = {| ById.insid := id;
              ById.count := Py.len (map (to_record (columns df)) found);
              ById.data := map (to_record (columns df)) found |}.
Proof.
  unfold get_records_by_insid.
  destruct (getitem df "INSID") as [s|]; [|discriminate]. cbn [bind].
  destruct (eq_int far s id) as [mask|]; [|discriminate]. cbn [bind].
  unfold to_dict_records, getitem_mask. cbn [rows columns].
  intros Hr. exists (select (rows df) mask).
  destruct (select (rows df) mask) as [|row rest]; [discriminate|].
  cbn [map] in *. injection Hr as <-. split; [discriminate | reflexivity].
Qed.

(** What a lookup raises when the comparison is not a modelled one. *)
Lemma by_insid_uncertain (far : far_compare) (df : DataFrame) (id : Z) (e : exn) :
  certain df id = false ->
  get_records_by_insid far df id = Raises e ->
  e = HTTPException 404 (String.append "No records found for INSID " (Py.str_of_int id))
  \/ far id = Raises e.
Proof.
  unfold certain, insid_dtype, get_records_by_insid, getitem.
  destruct (find_column "INSID" (columns df)) as [[i t]|]; [|discriminate].
  cbn [option_map snd bind].
  destruct t; try discriminate; intros Hfar;
    unfold eq_int; cbn [s_dtype values]; rewrite Hfar;
    (destruct (far id) as [test|e']; cbn [bind];
     [ destruct (to_dict_records _); [|discriminate];
       intros H; injection H as <-; now left
     | intros H; injection H as <-; now right ]).
Qed.

(** X11. Whatever [get_records_by_insid] returns carries the id asked for, a
    count that is the number of records returned and is at least 1, and only
    records whose keys are the column labels of the table and, where the
    comparison is a modelled one, whose INSID entry is the number sought.  On
    a table with no INSID column it raises [KeyError]; where the comparison
    is a modelled one that is its only exception besides the 404, and
    otherwise it raises what the comparison raised.  The comparison of every
    64-bit id is a modelled one.  The number sought is the id itself where
    the column does not hold doubles or a double holds the id; on a column of
    doubles it is the double nearest to the id. *)
Theorem lookup_by_insid_outcomes :
  forall (far : far_compare) (df : DataFrame) (id : Z),
    (forall r,
       get_records_by_insid far df id = Returns r ->
       ById.insid r = id
       /\ ById.count r = Py.len (ById.data r)
       /\ 1 <= ById.count r
       /\ forall rec, In rec (ById.data r) ->
            keys rec = labels df
            /\ (certain df id = true ->
                lookup "INSID" rec = Some (CInt (sought df id))))
    /\ (has_column df "INSID" = false ->
        get_records_by_insid far df id = Raises (KeyError "INSID"))
    /\ (certain df id = true ->
        get_records_by_insid far df id = Raises (KeyError "INSID") ->
        has_column df "INSID" = false)
    /\ (forall e,
          get_records_by_insid far df id = Raises e ->
          e = KeyError "INSID"
          \/ e = HTTPException 404
                   (String.append "No records found for INSID " (Py.str_of_int id))
          \/ (certain df id = false /\ far id = Raises e))
    /\ (fits_int64 id = true -> certain df id = true)
    /\ (insid_dtype df <> Some float64 \/ is_double id = true -> sought df id = id)
    /\ (insid_dtype df = Some float64 -> sought df id = to_double id).
Proof.
  intros far df id.
  assert (Hmissing : has_column df "INSID" = false ->
                     get_records_by_insid far df id = Raises (KeyError "INSID")).
  { intros Hcol. unfold get_records_by_insid.
    now rewrite (getitem_missing _ _ Hcol). }
  split; [|split; [exact Hmissing|split; [|split; [|split; [|split]]]]].
  - intros r Hr.
    destruct (by_insid_returns far df id r Hr) as [found [Hne Hshape]].
    split; [now rewrite Hshape|]. split; [now rewrite Hshape|]. split.
    + rewrite Hshape. cbn [ById.count]. unfold Py.len. rewrite length_map.
      destruct found; [contradiction | cbn [List.length]; lia].
    + intros rec Hin. split.
      * rewrite Hshape in Hin. cbn [ById.data] in Hin.
        apply in_map_iff in Hin. destruct Hin as [row [<- _]].
        apply keys_to_record.
      * intros Hcertain.
        destruct (has_column df "INSID") eqn:Hcol;
          [|rewrite (Hmissing eq_refl) in Hr; discriminate].
        rewrite (by_insid_rows far df id Hcol Hcertain) in Hr.
        set (kept := filter _ (rows df)) in Hr.
        assert (Hkept : forall rec', In rec' (map (to_record (columns df)) kept) ->
                          lookup "INSID" rec' = Some (CInt (sought df id))).
        { intros rec' Hin'. apply in_map_iff in Hin'.
          destruct Hin' as [row [<- Hrow]].
          apply filter_In in Hrow. destruct Hrow as [_ Heq].
          apply cell_eqb_eq in Heq. now rewrite (lookup_entry _ _ _ Hcol), Heq. }
        destruct (map (to_record (columns df)) kept) as [|r0 rest];
          [discriminate|].
        injection Hr as <-. now apply Hkept.
  - intros Hcertain Hkey.
    destruct (has_column df "INSID") eqn:Hcol; [|reflexivity].
    rewrite (by_insid_rows far df id Hcol Hcertain) in Hkey.
    destruct (map _ _); discriminate.
  - intros e He.
    destruct (has_column df "INSID") eqn:Hcol;
      [|rewrite (Hmissing eq_refl) in He; injection He as <-; now left].
    destruct (certain df id) eqn:Hcertain.
    + rewrite (by_insid_rows far df id Hcol Hcertain) in He.
      destruct (map _ _); [|discriminate]. injection He as <-. right. now left.
    + destruct (by_insid_uncertain far df id e Hcertain He) as [->|Hfar]; auto.
  - apply certain_fits.
  - apply sought_exact.
  - unfold sought. now intros ->.
Qed.

(** On a column of doubles the records that come back hold the double
    nearest to the id, which need not be the id. *)
Example lookup_returns_nearest_double :
  sought float_ids 9007199254740993 = 9007199254740992
  /\ certain float_ids 9007199254740993 = true
  /\ certain float_ids (2 ^ 64 + 1) = false.
Proof. repeat split. Qed.

(** ** Records are rows *)

(** X12. Every record of a listing is a row of the table, whole: its keys are
    the column labels of the table, in order, and under every column label it
    holds the entry of that row, filtered column or not. *)
Theorem listing_records_are_rows :
  forall (beyond : Re.engine) (df : DataFrame) (page size : Z)
         (insname creddesc : option string) (resp : Listing.t) (rec : record),
    get_records beyond df page size insname creddesc = Returns resp ->
    In rec (Listing.data resp) ->
    keys rec = labels df
    /\ exists row,
         In row (rows df)
         /\ forall column, has_column df column = true ->
              lookup column rec = Some (entry df column row).
Proof.
  intros beyond df page size insname creddesc resp rec Hresp Hrec.
  destruct (get_records_returns _ _ _ _ _ _ _ Hresp rec Hrec) as [row [Hrow [-> _]]].
  split; [apply keys_to_record|].
  exists row. split; [assumption|]. intros column Hcol. now apply lookup_entry.
Qed.

Lemma listing_records_are_rows_witness :
  keys [("INSID", CInt 3); ("INSNAME", CStr "Gamma Tech");
        ("CREDDESC", CNaN); ("CREDLEV", CInt 3)] = labels with_gaps
  /\ exists row,
       In row (rows with_gaps)
       /\ forall column, has_column with_gaps column = true ->
            lookup column [("INSID", CInt 3); ("INSNAME", CStr "Gamma Tech");
                           ("CREDDESC", CNaN); ("CREDLEV", CInt 3)]
            = Some (entry with_gaps column row).
Proof.
  refine (listing_records_are_rows
            Re.refuse_others with_gaps 1 10 (Some "tech") None _ _ eq_refl _).
  left. reflexivity.
Defined.

(** ** Start-up: the labels are stripped *)

Lemma lstrip_starts (s : string) : starts_with_space (Py.lstrip s) = false.
Proof.
  induction s as [|c s IH]; simpl; [reflexivity|].
  destruct (Py.isspace c) eqn:Hc; [assumption | simpl; assumption].
Qed.

Lemma rstrip_starts (s : string) :
  starts_with_space s = false -> starts_with_space (Py.rstrip s) = false.
Proof.
  destruct s as [|c s]; simpl; [reflexivity|]. intros Hc.
  destruct (Py.rstrip s); [now rewrite Hc | assumption].
Qed.

Lemma rstrip_ends (s : string) : ends_with_space (Py.rstrip s) = false.
Proof.
  induction s as [|c s IH]; simpl; [reflexivity|].
  destruct (Py.rstrip s) as [|d t] eqn:Ht.
  - destruct (Py.isspace c) eqn:Hc; simpl; [reflexivity | assumption].
  - exact IH.
Qed.

Lemma lstrip_fixed (s : string) : starts_with_space s = false -> Py.lstrip s = s.
Proof.
  destruct s as [|c s]; simpl; [reflexivity|]. now intros ->.
Qed.

Lemma rstrip_fixed (s : string) : ends_with_space s = false -> Py.rstrip s = s.
Proof.
  induction s as [|c s IH]; [reflexivity|].
  intros H. cbn [Py.rstrip]. destruct s as [|d t].
  - simpl in *. now rewrite H.
  - rewrite (IH H). reflexivity.
Qed.

Lemma strip_no_space (s : string) :
  starts_with_space (Py.strip s) = false /\ ends_with_space (Py.strip s) = false.
Proof.
  unfold Py.strip. split; [apply rstrip_starts, lstrip_starts | apply rstrip_ends].
Qed.

Lemma strip_strip (s : string) : Py.strip (Py.strip s) = Py.strip s.
Proof.
  destruct (strip_no_space s) as [Hstart Hend].
  unfold Py.strip at 1. now rewrite (lstrip_fixed _ Hstart), (rstrip_fixed _ Hend).
Qed.

(** Among distinct labels a column is found at its own position, with its
    dtype. *)
Lemma find_column_nth (cols : list (string * dtype)) :
  NoDup (map fst cols) ->
  forall (k : nat) (name : string) (t : dtype),
    nth_error cols k = Some (name, t) ->
    find_column name cols = Some (k, t).
Proof.
  induction cols as [|[n t'] cols IH]; intros Hnd k name t Hk.
  - destruct k; discriminate.
  - cbn [map fst] in Hnd. inversion Hnd as [|? ? Hfresh Hrest]; subst.
    cbn [find_column]. destruct k as [|k]; cbn [nth_error] in Hk.
    + injection Hk as -> ->. now rewrite String.eqb_refl.
    + destruct (String.eqb_spec name n) as [->|Hne].
      * exfalso. apply Hfresh. apply nth_error_In in Hk.
        apply in_map_iff. now exists (n, t).
      * now rewrite (IH Hrest k name t Hk).
Qed.

(** X13. Loading a parsed table keeps its rows and the number and dtypes of
    its columns, and leaves no label with white space at either end.  When
    the stripped labels are distinct, the column whose header is padded with
    spaces is the one found under its bare name: at its position, with its
    dtype, so that every row has its entry of that column under the bare
    name.  Loading the loaded table again changes nothing. *)
Theorem startup_strips_labels :
  forall parsed : DataFrame,
    let df := startup_df (Some parsed) in
    rows df = rows parsed
    /\ map snd (columns df) = map snd (columns parsed)
    /\ (forall name, In name (labels df) ->
          starts_with_space name = false /\ ends_with_space name = false)
    /\ (NoDup (labels df) ->
        forall k name t,
          nth_error (columns parsed) k = Some (name, t) ->
          find_column (Py.strip name) (columns df) = Some (k, t)
          /\ has_column df (Py.strip name) = true
          /\ forall row, entry df (Py.strip name) row = read t (cell_at k row))
    /\ startup_df (Some df) = df.
Proof.
  intros parsed df. unfold df, startup_df, strip_columns, labels. cbn [rows columns].
  split; [reflexivity|]. split; [now rewrite map_map|]. split; [|split].
  - intros name H. rewrite map_map in H. apply in_map_iff in H.
    destruct H as [c [<- _]]. apply strip_no_space.
  - intros Hnd k name t Hk.
    assert (Hfound : find_column (Py.strip name)
                       (map (fun c => (Py.strip (fst c), snd c)) (columns parsed))
                     = Some (k, t)).
    { apply find_column_nth; [exact Hnd|].
      rewrite nth_error_map, Hk. reflexivity. }
    unfold has_column, entry. cbn [columns]. rewrite Hfound. now repeat split.
  - f_equal. rewrite map_map. apply map_ext. intros [n t]. cbn [fst snd].
    now rewrite strip_strip.
Qed.

Example startup_finds_padded_header :
  get_records_by_insid far_overflows
    (startup_df (Some (mkDataFrame [(" INSID ", int64); ("INSNAME  ", object)]
                         [[CInt 7; CStr "Alpha U"]]))) 7
  = Returns {| ById.insid := 7;
               ById.count := 1;
               ById.data := [ [("INSID", CInt 7); ("INSNAME", CStr "Alpha U")] ] |}.
Proof. reflexivity. Qed.

(** Two headers that differ in their padding only are one label once loaded:
    such a table is not among those with distinct labels. *)
Example startup_can_merge_labels :
  labels (startup_df (Some (mkDataFrame [("INSID", int64); (" INSID", int64)] [])))
  = ["INSID"; "INSID"].
Proof. reflexivity. Qed.

(** ** The welcome payload and the totals *)

Lemma sum_lengths {A : Type} (ls : list (list A)) :
  sum (map Py.len ls) = Py.len (List.concat ls).
Proof.
  unfold sum, Py.len. induction ls as [|l ls IH]; simpl; [reflexivity|].
  rewrite IH, length_app. lia.
Qed.

(** The count of a lookup is the number of rows with that INSID, found or
    not, for an id that is compared as it stands. *)
Lemma count_of_lookup (far : far_compare) (df : DataFrame) (id : Z) :
  has_column df "INSID" = true ->
  certain df id = true ->
  sought df id = id ->
  count_of (get_records_by_insid far df id)
  = Py.len (keyed (entry df "INSID") id (rows df)).
Proof.
  intros Hcol Hcertain Hsought.
  rewrite (by_insid_rows far df id Hcol Hcertain), Hsought.
  fold (keyed (entry df "INSID") id (rows df)).
  destruct (keyed (entry df "INSID") id (rows df)) as [|row rest]; [reflexivity|].
  cbn [map count_of ById.count]. unfold Py.len. cbn [List.length].
  now rewrite length_map.
Qed.

(** X14. The lookups account for the whole table: on a table in which every
    record has an integer INSID, the counts of [get_records_by_insid] over the
    distinct INSID values add up to the [total_records] that [read_root]
    reports. *)
Theorem lookup_counts_add_up_to_total_records :
  forall (far : far_compare) (df : DataFrame) (ids : list Z),
    has_column df "INSID" = true ->
    (forall row, In row (rows df) -> exists z, entry df "INSID" row = CInt z) ->
    NoDup ids ->
    (forall z, In z ids <-> In (CInt z) (column_entries df "INSID")) ->
    sum (map (fun id => count_of (get_records_by_insid far df id)) ids)
    = Root.total_records (read_root df).
Proof.
  intros far df ids Hcol Hint Hnd Hids.
  rewrite (map_ext_in _ (fun id => Py.len (keyed (entry df "INSID") id (rows df)))).
  2:{ intros id Hid. apply Hids in Hid.
      destruct (occurring_exact df id Hid) as [Hcertain Hsought].
      now apply count_of_lookup. }
  rewrite <- (map_map (fun id => keyed (entry df "INSID") id (rows df)) Py.len).
  rewrite sum_lengths. cbn [read_root Root.total_records]. unfold len, Py.len.
  f_equal. rewrite (Permutation_length
                      (groups_partition _ (entry df "INSID") ids (rows df) Hnd
                         (fun row z Hrow Hz =>
                            proj2 (Hids z)
                              (proj2 (in_map_iff _ _ _) (ex_intro _ row (conj Hz Hrow)))))).
  unfold int_keyed. rewrite (filter_ext_in _ (fun _ => true)).
  - now rewrite filter_all.
  - intros row Hrow. destruct (Hint row Hrow) as [z Hz]. now rewrite Hz.
Qed.

Lemma lookup_counts_add_up_to_total_records_witness :
  sum (map (fun id => count_of (get_records_by_insid far_overflows scenario id)) [1; 2])
  = Root.total_records (read_root scenario).
Proof.
  refine (lookup_counts_add_up_to_total_records far_overflows scenario [1; 2] _ _ _ _).
  - reflexivity.
  - intros row [<-|[<-|[<-|[]]]]; eexists; reflexivity.
  - repeat constructor; simpl; intuition discriminate.
  - intros z. simpl. split.
    + intros [<-|[<-|[]]]; auto.
    + intros [H|[H|[H|[]]]]; injection H as <-; auto.
Defined.

(** ** A request with no parameter *)

(** The handler on page 1 of size 10 without filters. *)
Lemma first_ten (beyond : Re.engine) (df : DataFrame) :
  route_records beyond df None None None None =
    Returns {| Listing.page := 1;
               Listing.size := Z.min 10 (len df);
               Listing.total_filtered := Root.total_records (read_root df);
               Listing.data := firstn 10 (to_dict_records df) |}.
Proof.
  unfold route_records, Query.
  rewrite get_records_run. cbn [bind filter_column]. cbv zeta.
  replace ((1 - 1) * 10) with 0 by lia.
  rewrite (slice_window (rows df) 0 10) by lia.
  cbn [Z.to_nat skipn read_root Root.total_records].
  unfold to_dict_records, len, Py.len. rewrite firstn_map, length_firstn.
  f_equal. f_equal. lia.
Qed.

(** X15. A request to [/records] with no parameter at all is page 1 of size
    10 without filters: on every table, with columns or not, the handler
    returns the first ten records (all of them when there are fewer), with a
    [total_filtered] that is the [total_records] of [read_root].  The request
    is answered with that body when none of these records holds a missing
    entry; when one does, the body cannot be encoded and the request ends in
    a [ValueError], answered with a 500. *)
Theorem bare_request_lists_first_ten :
  forall (beyond : Re.engine) (df : DataFrame),
    let body :=
      {| Listing.page := 1;
         Listing.size := Z.min 10 (len df);
         Listing.total_filtered := Root.total_records (read_root df);
         Listing.data := firstn 10 (to_dict_records df) |} in
    get_records beyond df 1 10 None None = Returns body
    /\ (existsb holds_nan (firstn 10 (to_dict_records df)) = false ->
        serve_records beyond df None None None None = Returns body)
    /\ (existsb holds_nan (firstn 10 (to_dict_records df)) = true ->
        serve_records beyond df None None None None = Raises (Exception "ValueError"))
    /\ status_of (Exception "ValueError") = 500.
Proof.
  intros beyond df body. pose proof (first_ten beyond df) as Hrun. fold body in Hrun.
  split; [exact Hrun|].
  unfold serve_records. rewrite Hrun. cbn [bind]. unfold encode_records.
  cbn [Listing.data body]. unfold body. cbn [Listing.data].
  split; [|split; [|reflexivity]]; intros ->; reflexivity.
Qed.

(** A table with a missing entry among its first ten records: the listing is
    computed, and the bare request ends in a 500. *)
Example bare_request_on_gaps :
  (exists body, get_records Re.refuse_others with_gaps 1 10 None None = Returns body)
  /\ serve_records Re.refuse_others with_gaps None None None None
     = Raises (Exception "ValueError")
  /\ serve_records Re.refuse_others scenario None None None None
     = get_records Re.refuse_others scenario 1 10 None None.
Proof. split; [eexists; reflexivity | split; reflexivity]. Qed.

(** The same holds for a lookup: a record with a missing entry is found, and
    cannot be sent. *)
Example lookup_on_gaps :
  (exists body, get_records_by_insid far_overflows with_gaps 3 = Returns body)
  /\ serve_records_by_insid far_overflows with_gaps (Int 3)
     = Raises (Exception "ValueError")
  /\ serve_records_by_insid far_overflows with_gaps Malformed
     = Raises RequestValidationError.
Proof. split; [eexists; reflexivity | split; reflexivity]. Qed.
